(** * dotland: the request handler of routes/x/module.tsx

    A shallow embedding of [handler.GET] and [handlerRaw] of
    [src/routes/x/module.tsx]: the redirects that make every module page
    have one canonical URL, and the raw-file path.

    Upstream calls ([fetch], [getVersionList], [fetchSource], [getReadme],
    [getRawFile]) are the awaits of the [async] functions: the handler is a
    program in a small free monad [Async], run against the answers of the
    services, with the calls it made recorded in a trace. *)

From Stdlib Require Import String Ascii List Bool Arith NArith.
From Stdlib Require Import DecimalString.
From Stdlib Require Import Lia.
Import ListNotations.
Open Scope list_scope.
Open Scope string_scope.

(** ** Strings as the platform functions see them *)

Module Js.

(** [s.slice(n)]: the string without its first [n] characters. *)
Fixpoint slice (n : nat) (s : string) : string :=
  match n, s with
  | O, _ => s
  | S n', String _ r => slice n' r
  | S _, EmptyString => EmptyString
  end.

(** [s.startsWith(p)]. *)
Definition startsWith (s p : string) : bool := String.prefix p s.

(** A string is truthy when it is not empty. *)
Definition truthy (s : string) : bool := negb (s =? "").

(** [String(n)] of a natural number (plain decimal digits; JavaScript turns
    to exponent notation from 10^21 on, which no line number reaches). *)
Definition string_of_number (n : N) : string :=
  NilZero.string_of_uint (N.to_uint n).

Definition hex_digit (n : nat) : ascii :=
  ascii_of_nat (if (n <? 10)%nat then 48 + n else 55 + n).

Definition in_range (lo hi n : nat) : bool :=
  ((lo <=? n) && (n <=? hi))%nat.

(** The characters [encodeURIComponent] leaves alone: letters, digits and
    [- _ . ! ~ * ' ( )]. *)
Definition unreserved (c : ascii) : bool :=
  let n := nat_of_ascii c in
  in_range 65 90 n || in_range 97 122 n || in_range 48 57 n
  || existsb (Ascii.eqb c) (list_ascii_of_string "-_.!~*'()").

(** [encodeURIComponent(s)], on the UTF-8 bytes of [s]: every other byte
    becomes [%XX]. *)
Fixpoint encodeURIComponent (s : string) : string :=
  match s with
  | EmptyString => EmptyString
  | String c r =>
      let n := nat_of_ascii c in
      (if unreserved c then String c EmptyString
       else String "%" (String (hex_digit (n / 16))
                          (String (hex_digit (n mod 16)) EmptyString)))
      ++ encodeURIComponent r
  end.

Definition lower (c : ascii) : ascii :=
  let n := nat_of_ascii c in
  if in_range 65 90 n then ascii_of_nat (n + 32) else c.

Fixpoint toLowerCase (s : string) : string :=
  match s with
  | EmptyString => EmptyString
  | String c r => String (lower c) (toLowerCase r)
  end.

End Js.

(** ** URLSearchParams: an ordered list of name/value pairs

    A flag such as [?source] is the pair [("source", "")]. *)

Module SearchParams.

Definition t := list (string * string).

Definition has (name : string) (l : t) : bool :=
  existsb (fun p => fst p =? name) l.

Definition get (name : string) (l : t) : option string :=
  option_map snd (find (fun p => fst p =? name) l).

Definition delete (name : string) (l : t) : t :=
  filter (fun p => negb (fst p =? name)) l.

(** [set(name, value)]: the first pair of that name takes the value and
    the others of that name go; with no such pair, one is appended. *)
Fixpoint set (name value : string) (l : t) : t :=
  match l with
  | [] => [(name, value)]
  | (k, v) :: r =>
      if k =? name then (name, value) :: delete name r
      else (k, v) :: set name value r
  end.

End SearchParams.

(** ** URL objects

    A parsed URL by its parts.  [hash] is the fragment without its [#]
    (empty: no fragment).  The text of a path is kept as it is written:
    the platform parser's percent-encoding and dot-segment removal are the
    identity on the paths the router hands over. *)

Module URL.

Record t := mk {
  origin : string;
  pathname : string;
  searchParams : SearchParams.t;
  hash : string
}.

(** [url.pathname = p]: the path of a URL always starts with a slash. *)
Definition set_pathname (u : t) (p : string) : t :=
  mk (origin u) (if Js.startsWith p "/" then p else "/" ++ p)
     (searchParams u) (hash u).

(** [url.searchParams.set(name, value)]. *)
Definition searchParams_set (u : t) (name value : string) : t :=
  mk (origin u) (pathname u) (SearchParams.set name value (searchParams u))
     (hash u).

(** [url.hash = h]. *)
Definition set_hash (u : t) (h : string) : t :=
  mk (origin u) (pathname u) (searchParams u) h.

(** [new URL(path, base)] for a reference that is a path from the root:
    the origin of [base], the path, and neither the query nor the fragment
    of [base]. *)
Definition resolve (path : string) (base : t) : t :=
  mk (origin base) path [] "".

End URL.

(** ** Headers: names compare without case, values of one name are joined *)

Module Headers.

Definition t := list (string * string).

Definition get (name : string) (h : t) : option string :=
  match filter (fun p => Js.toLowerCase (fst p) =? Js.toLowerCase name) h with
  | [] => None
  | vs => Some (String.concat ", " (map snd vs))
  end.

End Headers.

(** ** Requests, route parameters and what the services answer *)

(** The request: [req.url], the URL object [new URL(req.url)] the handler
    builds from it, and the request headers. *)
Record Request := {
  url : string;
  parsed_url : URL.t;
  req_headers : Headers.t
}.

(** [Params]: the groups of the route [/x/:name{@:version}?/:path*]; a
    group that did not match is the empty string. *)
Record Params := {
  name : string;
  version : string;
  path : string
}.

Inductive Views : Type := doc | source | info.

Definition Views_eqb (a b : Views) : bool :=
  match a, b with
  | doc, doc | source, source | info, info => true
  | _, _ => false
  end.

Definition view_string (v : Views) : string :=
  match v with doc => "doc" | source => "source" | info => "info" end.

(** What [getVersionList] resolves to when the module has an entry. *)
Record VersionList := {
  latest : option string;
  versions : list string
}.

(** What [extractAltLineNumberReference] returns when it finds a line
    reference. *)
Record LineReference := {
  rest : string;
  line : N
}.

(** Modelled from the spec: [getModulePath] of [util/registry_utils.ts],
    which is not among the sources.  It writes the route of section 6,
    [/x/<name>[@<version>]<path>], without the [/x] for the [std] alias.  An
    absent or empty version leaves the version token out (the handler
    itself writes an absent version as the empty string, lines 82 and 167),
    and the token is written percent-encoded: the parser of 4.1
    percent-decodes it, as the page does at line 202. *)
Definition getModulePath
  (name : string) (version : option string) (path : option string) : string :=
  (if name =? "std" then "" else "/x") ++ "/" ++ name
  ++ match version with
     | Some v => if Js.truthy v then "@" ++ Js.encodeURIComponent v else ""
     | None => ""
     end
  ++ match path with Some p => p | None => "" end.

Definition RAW_HEADERS : Headers.t := [("Access-Control-Allow-Origin", "*")].

Section Handler.

(** The values the handler passes along without looking into them: the
    readme entry of a page, the files [getReadme] and [getRawFile] resolve
    to, the other fields of a page; and the response of [fetchSource]. *)
Variables (Json RawResponse : Type).

(** [accepts] of oak_commons: the offered type the request prefers. *)
Variable accepts : Request -> list string -> option string.

(** [extractAltLineNumberReference] of [util/registry_utils.ts]. *)
Variable extractAltLineNumberReference : string -> option LineReference.

(** A page as apiland describes it: its [kind], and the fields the handler
    reads or fills.  [readme] is [Some] when the field is there and truthy. *)
Record Page := {
  kind : string;
  readme : option Json;
  readmeFile : option Json;
  file : option Json;
  fields : Json
}.

Definition set_readmeFile (p : Page) (f : Json) : Page :=
  Build_Page (kind p) (readme p) (Some f) (file p) (fields p).

Definition set_file (p : Page) (f : Json) : Page :=
  Build_Page (kind p) (readme p) (readmeFile p) (Some f) (fields p).

(** [Data]: the page and the view it was asked in. *)
Record Data := {
  data : Page;
  view : Views
}.

(** The response of [fetch(resURL, { redirect: "manual" })]; [json] is
    [None] when [res.json()] rejects. *)
Record FetchResponse := {
  status : nat;
  headers : Headers.t;
  json : option Page
}.

(** The responses the handler builds. *)
Inductive Response : Type :=
| Redirect (location : URL.t) (status : nat)
    (* Response.redirect(url, status) *)
| NewResponse (body : option string) (status : nat) (headers : Headers.t)
    (* new Response(body, { status, headers }) *)
| Render (data : option Data)
    (* render(data) *)
| FromSource (r : RawResponse).
    (* the response fetchSource resolves to *)

(** [Response.redirect(url, status)]; the status defaults to 302. *)
Definition Response_redirect (u : URL.t) (status : option nat) : Response :=
  Redirect u (match status with Some s => s | None => 302 end).

(** *** The asynchronous calls *)

Inductive call : Type :=
| Fetch (resURL : URL.t)
| GetVersionList (name : string)
| FetchSource (name version path : string)
| GetReadme (name version : string) (readme : Json)
| GetRawFile (name version path : string).

Definition answer (c : call) : Type :=
  match c with
  | Fetch _ => FetchResponse
  | GetVersionList _ => option VersionList
  | FetchSource _ _ _ => RawResponse
  | GetReadme _ _ _ => Json
  | GetRawFile _ _ _ => Json
  end.

(** An [async] function: it resolves, rejects, awaits a call and goes on
    with its answer, or writes to the console and goes on. *)
Inductive Async (A : Type) : Type :=
| Resolved (a : A)
| Rejected
| Await (c : call) (k : answer c -> Async A)
| ConsoleLog (msg : string) (k : Async A).

Arguments Resolved {A} a.
Arguments Rejected {A}.
Arguments Await {A} c k.
Arguments ConsoleLog {A} msg k.

Notation "x <- 'await' c ;; k" := (Await c (fun x => k))
  (at level 61, c at next level, right associativity).

(** The services: the answer to each call, [None] when the promise
    rejects. *)
Definition Services : Type := forall c : call, option (answer c).

Inductive event : Type :=
| Call (c : call)
| Log (msg : string).

(** Running a program: its result ([None]: the request fails) and what it
    did, in order.  A rejected await is not caught. *)
Fixpoint run {A : Type} (env : Services) (p : Async A) : option A * list event :=
  match p with
  | Resolved a => (Some a, [])
  | Rejected => (None, [])
  | Await c k =>
      match env c with
      | Some x => let (r, t) := run env (k x) in (r, Call c :: t)
      | None => (None, [Call c])
      end
  | ConsoleLog msg k => let (r, t) := run env k in (r, Log msg :: t)
  end.

Definition is_call (e : event) : bool :=
  match e with Call _ => true | Log _ => false end.

Definition is_page_lookup (e : event) : bool :=
  match e with Call (Fetch _) => true | _ => false end.

(** The upstream calls of a trace. *)
Definition upstream_calls (t : list event) : list event := filter is_call t.

(** *** handlerRaw (lines 163-194) *)

Definition handlerRaw (req : Request) (params : Params) : Async Response :=
  let name := name params in
  let version := version params in
  let path := path params in
  if version =? "" then
    versions <- await (GetVersionList name) ;;
    match (versions : option VersionList) with
    | None =>
        Resolved (NewResponse
          (Some ("The module '" ++ name ++ "' does not exist")) 404 RAW_HEADERS)
    | Some versions =>
        match latest versions with
        | None =>
            Resolved (NewResponse
              (Some ("The module '" ++ name ++ "' has no latest version."))
              404 RAW_HEADERS)
        | Some latest =>
            let path := if Js.truthy path then "/" ++ path else path in
            Resolved (NewResponse None 302
              (List.app RAW_HEADERS
               [("Location", getModulePath name (Some latest) (Some path));
                ("x-deno-warning",
                 "Implicitly using latest version (" ++ latest ++ ") for "
                 ++ url req)]))
        end
    end
  else
    r <- await (FetchSource name version path) ;;
    Resolved (FromSource r).

(** *** handler.GET (lines 57-155) *)

(** Line 61: the module is [std] and the path still starts with [/x]. *)
Definition std_legacy_prefix (params : Params) (url : URL.t) : bool :=
  (name params =? "std") && Js.startsWith (URL.pathname url) "/x".

(** Line 66: content negotiation between [application/*] and [text/html]. *)
Definition isHTML (req : Request) : bool :=
  match accepts req ["application/*"; "text/html"] with
  | Some t => t =? "text/html"
  | None => false
  end.

(** Lines 69-78: the view of a rendered request. *)
Definition classify_view (searchParams : SearchParams.t) (path : string) : Views :=
  if SearchParams.has "source" searchParams then source
  else if SearchParams.has "doc" searchParams then doc
  else if negb (Js.truthy path) then info
  else doc.

(** Lines 80-89: the page of apiland that is asked for. *)
Definition resURL (view : Views) (params : Params) (url : URL.t) : URL.t :=
  let resURL :=
    URL.mk "https://apiland.deno.dev"
      ("/v2/pages/mod/" ++ view_string view ++ "/" ++ name params ++ "/"
       ++ (if Js.truthy (version params) then version params else "__latest__")
       ++ "/" ++ path params)
      [] "" in
  match SearchParams.get "s" (URL.searchParams url) with
  | Some symbol =>
      if Js.truthy symbol && Views_eqb view doc
      then URL.searchParams_set resURL "symbol" symbol
      else resURL
  | None => resURL
  end.

(** Lines 103 and 110: the sub-path with its slash, when there is one. *)
Definition sub_path (params : Params) : option string :=
  if Js.truthy (path params) then Some ("/" ++ path params) else None.

(** Line 135: documentation was asked of what is only a file. *)
Definition doc_of_file (d : Data) : bool :=
  Views_eqb (view d) doc && (kind (data d) =? "file").

(** Lines 148-154: the readme of a module page, the content of a file in
    source view, and the page is rendered. *)
Definition enrich (params : Params) (d : Data) : Async Response :=
  let name := name params in
  let version := version params in
  let path := path params in
  match kind (data d) =? "modinfo", readme (data d) with
  | true, Some entry =>
      f <- await (GetReadme name version entry) ;;
      Resolved (Render (Some (Build_Data (set_readmeFile (data d) f) (view d))))
  | _, _ =>
      if Views_eqb (view d) source && (kind (data d) =? "file") then
        f <- await (GetRawFile name version
                      (if Js.truthy path then "/" ++ path else "")) ;;
        Resolved (Render (Some (Build_Data (set_file (data d) f) (view d))))
      else Resolved (Render (Some d))
  end.

(** Lines 131-154: a page was received. *)
Definition resolve_page (params : Params) (url : URL.t) (d : Data)
  : Async Response :=
  if kind (data d) =? "no-versions" then Resolved (Render (Some d))
  else if doc_of_file d then
    let url := URL.searchParams_set url "source" "" in
    Resolved (Response_redirect url (Some 301))
  else
    match extractAltLineNumberReference (URL.pathname url) with
    | Some ln =>
        let url := URL.set_pathname url (rest ln) in
        let url := URL.searchParams_set url "source" "" in
        let url := URL.set_hash url ("L" ++ Js.string_of_number (line ln)) in
        Resolved (Response_redirect url (Some 302))
    | None => enrich params d
    end.

(** Lines 96-129: the answer of apiland, by its status. *)
Definition resolve_response (params : Params) (url : URL.t) (view : Views)
  (res : FetchResponse) : Async Response :=
  let name := name params in
  let version := version params in
  if Nat.eqb (status res) 404 then Resolved (Render None)
  else if Nat.eqb (status res) 302 then
    let latestVersion := Headers.get "X-Deno-Latest-Version" (headers res) in
    let target := getModulePath name latestVersion (sub_path params) in
    ConsoleLog target
      (Resolved (Response_redirect (URL.resolve target url) None))
  else if Nat.eqb (status res) 301 then
    let newPath := Headers.get "X-Deno-Module-Path" (headers res) in
    Resolved (NewResponse None 301
      [("Location", getModulePath name (Some version) newPath)])
  else
    match json res with
    | Some page => resolve_page params url (Build_Data page view)
    | None => Rejected
    end.

Definition handler_GET (req : Request) (params : Params) : Async Response :=
  let url := parsed_url req in
  if std_legacy_prefix params url then
    let url := URL.set_pathname url (Js.slice 2 (URL.pathname url)) in
    Resolved (Response_redirect url (Some 301))
  else if negb (isHTML req) then handlerRaw req params
  else
    let view := classify_view (URL.searchParams url) (path params) in
    res <- await (Fetch (resURL view params url)) ;;
    resolve_response params url view res.

(** *** Words for the statements *)

(** A rendered request: one that the [std] rewrite of line 61 does not
    answer and that line 66 negotiates to [text/html]. *)
Definition rendered (req : Request) (params : Params) : bool :=
  negb (std_legacy_prefix params (parsed_url req)) && isHTML req.

(** The page lookup of a rendered request (line 93). *)
Definition page_lookup (req : Request) (params : Params) : call :=
  let url := parsed_url req in
  Fetch (resURL (classify_view (URL.searchParams url) (path params)) params url).

(** The page an answer of apiland carries: none under the statuses of
    lines 96-126, the JSON body otherwise. *)
Definition page_of (res : FetchResponse) : option Page :=
  if Nat.eqb (status res) 404 || Nat.eqb (status res) 302
     || Nat.eqb (status res) 301
  then None else json res.

End Handler.

Arguments kind {Json} p.
Arguments readme {Json} p.
Arguments readmeFile {Json} p.
Arguments file {Json} p.
Arguments fields {Json} p.
Arguments Build_Page {Json} kind readme readmeFile file fields.
Arguments set_readmeFile {Json} p f.
Arguments set_file {Json} p f.
Arguments data {Json} d.
Arguments view {Json} d.
Arguments Build_Data {Json} data view.
Arguments status {Json} f.
Arguments headers {Json} f.
Arguments json {Json} f.
Arguments Build_FetchResponse {Json} status headers json.
Arguments Redirect {Json RawResponse} location status.
Arguments NewResponse {Json RawResponse} body status headers.
Arguments Render {Json RawResponse} data.
Arguments FromSource {Json RawResponse} r.
Arguments Response_redirect {Json RawResponse} u status.
Arguments Fetch {Json} resURL.
Arguments GetVersionList {Json} name.
Arguments FetchSource {Json} name version path.
Arguments GetReadme {Json} name version readme.
Arguments GetRawFile {Json} name version path.
Arguments Resolved {Json RawResponse A} a.
Arguments Rejected {Json RawResponse A}.
Arguments Await {Json RawResponse A} c k.
Arguments ConsoleLog {Json RawResponse A} msg k.
Arguments Call {Json} c.
Arguments Log {Json} msg.
Arguments run {Json RawResponse A} env p.
Arguments is_call {Json} e.
Arguments is_page_lookup {Json} e.
Arguments upstream_calls {Json} t.
Arguments handlerRaw {Json RawResponse} req params.
Arguments doc_of_file {Json} d.
Arguments enrich {Json RawResponse} params d.
Arguments resolve_page {Json RawResponse} extractAltLineNumberReference params url d.
Arguments resolve_response {Json RawResponse} extractAltLineNumberReference params url view res.
Arguments handler_GET {Json RawResponse} accepts extractAltLineNumberReference req params.
Arguments page_lookup {Json} req params.
Arguments page_of {Json} res.

(** ** The specification of the view, in the words of section 4.3 *)

(** A [source] flag gives Source; otherwise a [doc] flag gives Doc;
    otherwise no sub-path gives Info; otherwise Doc. *)
Inductive View_spec (searchParams : SearchParams.t) (path : string)
  : Views -> Prop :=
| View_source_flag :
    SearchParams.has "source" searchParams = true ->
    View_spec searchParams path source
| View_doc_flag :
    SearchParams.has "source" searchParams = false ->
    SearchParams.has "doc" searchParams = true ->
    View_spec searchParams path doc
| View_no_path :
    SearchParams.has "source" searchParams = false ->
    SearchParams.has "doc" searchParams = false ->
    path = "" ->
    View_spec searchParams path info
| View_default :
    SearchParams.has "source" searchParams = false ->
    SearchParams.has "doc" searchParams = false ->
    path <> "" ->
    View_spec searchParams path doc.

(** ** Requests and services to run the handler on *)

Module Scenario.

(** Content negotiation for a request whose [Accept] header names one
    type: that type when it is offered, the first offered type otherwise. *)
Definition accepts (req : Request) (types : list string) : option string :=
  match Headers.get "Accept" (req_headers req) with
  | Some a => if existsb (String.eqb a) types then Some a else hd_error types
  | None => hd_error types
  end.

Definition is_digit (c : ascii) : bool := Js.in_range 48 57 (nat_of_ascii c).

(** The digits at the head of a list of characters, and what follows. *)
Fixpoint span_digits (l : list ascii) : list ascii * list ascii :=
  match l with
  | c :: r =>
      if is_digit c then let (d, r') := span_digits r in (c :: d, r')
      else ([], l)
  | [] => ([], [])
  end.

Definition number_of_digits (d : list ascii) : N :=
  fold_left (fun n c => (10 * n + N.of_nat (nat_of_ascii c - 48))%N) d 0%N.

(** A line reference written as the suffix [:line:column] of the path. *)
Definition extractAltLineNumberReference (p : string) : option LineReference :=
  let (column, r1) := span_digits (rev (list_ascii_of_string p)) in
  match column, r1 with
  | _ :: _, ":"%char :: r2 =>
      let (digits, r3) := span_digits r2 in
      match digits, r3 with
      | _ :: _, ":"%char :: r4 =>
          Some {| rest := string_of_list_ascii (rev r4);
                  line := number_of_digits (rev digits) |}
      | _, _ => None
      end
  | _, _ => None
  end.

(** Pages and responses keep their opaque parts as text. *)
Definition Json : Type := string.
Definition RawResponse : Type := string.

Definition page (kind : string) : Page Json :=
  Build_Page kind None None None "{}".

(** Services that answer the page lookup with [res] and the version list
    lookup with [versions]. *)
Definition services (res : FetchResponse Json) (versions : option VersionList)
  : Services Json RawResponse :=
  fun c =>
    match c return option (answer Json RawResponse c) with
    | Fetch _ => Some res
    | GetVersionList _ => Some versions
    | FetchSource _ _ _ => Some ("export * from ..." : RawResponse)
    | GetReadme _ _ _ => Some ("# readme" : Json)
    | GetRawFile _ _ _ => Some ("export {}" : Json)
    end.

Definition html : Headers.t := [("accept", "text/html")].
Definition octet_stream : Headers.t := [("accept", "application/octet-stream")].

Definition deno_land (pathname : string) (searchParams : SearchParams.t) : URL.t :=
  URL.mk "https://deno.land" pathname searchParams "".

(** [GET /x/oak/mod.ts?source], no version. *)
Definition oak_latest : Request :=
  {| url := "https://deno.land/x/oak/mod.ts?source";
     parsed_url := deno_land "/x/oak/mod.ts" [("source", "")];
     req_headers := html |}.
Definition oak_latest_params : Params :=
  {| name := "oak"; version := ""; path := "mod.ts" |}.

(** [GET /x/oak/mod.ts] by a client that wants the file. *)
Definition oak_raw : Request :=
  {| url := "https://deno.land/x/oak/mod.ts";
     parsed_url := deno_land "/x/oak/mod.ts" [];
     req_headers := octet_stream |}.

(** [GET /x/oak@v12.0.0/mod.ts?doc]. *)
Definition oak_doc : Request :=
  {| url := "https://deno.land/x/oak@v12.0.0/mod.ts?doc";
     parsed_url := deno_land "/x/oak@v12.0.0/mod.ts" [("doc", "")];
     req_headers := html |}.
Definition oak_params : Params :=
  {| name := "oak"; version := "v12.0.0"; path := "mod.ts" |}.

(** [GET /x/oak@v12.0.0/mod.ts:10:3], a link to a line. *)
Definition oak_line : Request :=
  {| url := "https://deno.land/x/oak@v12.0.0/mod.ts:10:3";
     parsed_url := deno_land "/x/oak@v12.0.0/mod.ts:10:3" [];
     req_headers := html |}.
Definition oak_line_params : Params :=
  {| name := "oak"; version := "v12.0.0"; path := "mod.ts:10:3" |}.

(** [GET /x/oak@v12.0.0/mod.ts:10:3?source], the same in source view. *)
Definition oak_line_source : Request :=
  {| url := "https://deno.land/x/oak@v12.0.0/mod.ts:10:3?source";
     parsed_url := deno_land "/x/oak@v12.0.0/mod.ts:10:3" [("source", "")];
     req_headers := html |}.

(** [GET /x/oak@v12.0.0/examples], a directory with an index module. *)
Definition oak_dir : Request :=
  {| url := "https://deno.land/x/oak@v12.0.0/examples";
     parsed_url := deno_land "/x/oak@v12.0.0/examples" [];
     req_headers := html |}.
Definition oak_dir_params : Params :=
  {| name := "oak"; version := "v12.0.0"; path := "examples" |}.

(** [GET /x/std@0.150.0/fmt/colors.ts] by a client that wants the file. *)
Definition std_legacy : Request :=
  {| url := "https://deno.land/x/std@0.150.0/fmt/colors.ts";
     parsed_url := deno_land "/x/std@0.150.0/fmt/colors.ts" [];
     req_headers := octet_stream |}.
Definition std_legacy_params : Params :=
  {| name := "std"; version := "0.150.0"; path := "fmt/colors.ts" |}.

(** [GET /x/oak@v12.0.0], the module itself. *)
Definition oak_module : Request :=
  {| url := "https://deno.land/x/oak@v12.0.0";
     parsed_url := deno_land "/x/oak@v12.0.0" [];
     req_headers := html |}.
Definition oak_module_params : Params :=
  {| name := "oak"; version := "v12.0.0"; path := "" |}.

Definition implicit_latest : FetchResponse Json :=
  Build_FetchResponse 302 [("x-deno-latest-version", "v12.0.0")] None.
Definition canonical_path : FetchResponse Json :=
  Build_FetchResponse 301 [("x-deno-module-path", "/examples/mod.ts")] None.
Definition not_found : FetchResponse Json :=
  Build_FetchResponse 404 [] None.
Definition ok (kind : string) : FetchResponse Json :=
  Build_FetchResponse 200 [("content-type", "application/json")]
    (Some (page kind)).

Definition oak_versions : option VersionList :=
  Some {| latest := Some "v12.0.0"; versions := ["v12.0.0"; "v11.1.0"] |}.

Definition handler_GET := handler_GET (Json := Json) (RawResponse := RawResponse)
  accepts extractAltLineNumberReference.

End Scenario.

(** ** What a response says to the client *)

(** The status of a response the handler built itself. *)
Definition response_status {Json RawResponse : Type}
  (r : Response Json RawResponse) : option nat :=
  match r with
  | Redirect _ status => Some status
  | NewResponse _ status _ => Some status
  | Render _ | FromSource _ => None
  end.

(** Whether such a response names a location: [Response.redirect] always
    does, [new Response] when a [Location] header was given. *)
Definition has_location {Json RawResponse : Type}
  (r : Response Json RawResponse) : bool :=
  match r with
  | Redirect _ _ => true
  | NewResponse _ _ headers =>
      match Headers.get "Location" headers with Some _ => true | None => false end
  | Render _ | FromSource _ => false
  end.

(** Line 151: the path [getRawFile] is asked for. *)
Definition file_path (params : Params) : string :=
  if Js.truthy (path params) then "/" ++ path params else "".

(** ** The components of the page *)

(** [s.split(sep)] for a separator of one character: the pieces between
    the separators, in order; the empty string gives one empty piece. *)
Fixpoint split_from (sep : ascii) (s : string) : string * list string :=
  match s with
  | EmptyString => (EmptyString, [])
  | String c r =>
      let (piece, pieces) := split_from sep r in
      if Ascii.eqb c sep then (EmptyString, piece :: pieces)
      else (String c piece, pieces)
  end.

Definition split (sep : ascii) (s : string) : list string :=
  let (piece, pieces) := split_from sep s in piece :: pieces.

(** Whether a character occurs in a string. *)
Fixpoint has_char (c : ascii) (s : string) : bool :=
  match s with
  | EmptyString => false
  | String c' r => Ascii.eqb c' c || has_char c r
  end.

(** The path made of segments, each behind its slash. *)
Definition path_of_segments (segments : list string) : string :=
  fold_right (fun segment path => "/" ++ segment ++ path) "" segments.

(** An anchor, [<a href=... title=...>text</a>]. *)
Record Anchor := {
  href : string;
  title : string;
  text : string
}.

(** Breadcrumbs, lines 418-430: the loop over the segments; [seg] is the
    URL so far, and each segment that is kept comes out with its URL. *)
Fixpoint Breadcrumbs_loop (name version seg : string) (segments : list string)
  : list (string * string) :=
  match segments with
  | [] => []
  | segment :: segments =>
      if segment =? "" then Breadcrumbs_loop name version seg segments
      else
        let seg :=
          if segment =? name then seg ++ "/" ++ segment ++ "@" ++ version
          else seg ++ "/" ++ segment in
        (segment, seg) :: Breadcrumbs_loop name version seg segments
  end.

(** Breadcrumbs, lines 412-430: the segments are those of the path after
    the first, behind the name and, except for [std], behind [x]. *)
Definition Breadcrumbs_out (name path version : string)
  : list (string * string) :=
  let segments := tl (split "/" path) in
  let segments := name :: segments in
  let segments := if negb (name =? "std") then "x" :: segments else segments in
  Breadcrumbs_loop name version "" segments.

(** Breadcrumbs, lines 401-449: the anchors of the trail, in order (the
    component writes a slash between two of them); in source view every
    link keeps the [source] flag. *)
Definition Breadcrumbs (name path version : string) (view : Views)
  : list Anchor :=
  map (fun c : string * string =>
         let (seg, url) := c in
         let url := if Views_eqb view source then url ++ "?source" else url in
         {| href := url; title := seg; text := seg |})
      (Breadcrumbs_out name path version).

(** A tag of a module, [{ kind, value }]. *)
Record Tag := {
  tag_kind : string;
  tag_value : string
}.

(** The attributes that InfoView lists. *)
Inductive Attribute : Type :=
| PopularityTag (value : string)
| ByDenoTeam
| IncludesDenoConfiguration.

(** InfoView, lines 492-521: the attributes of a module, from its name,
    its tags ([None]: the page has none), the repository of its upload
    options and its configuration ([None]: no truthy [config]). *)
Definition InfoView_attributes {Config : Type} (name : string)
  (tags : option (list Tag)) (repository : string) (config : option Config)
  : list Attribute :=
  let popularityTag :=
    match tags with
    | Some tags => find (fun tag => tag_kind tag =? "popularity") tags
    | None => None
    end in
  let attributes :=
    match popularityTag with
    | Some tag =>
        if negb (name =? "std") then [PopularityTag (tag_value tag)] else []
    | None => []
    end in
  let attributes :=
    if hd "" (split "/" repository) =? "denoland"
    then List.app attributes [ByDenoTeam] else attributes in
  match config with
  | Some _ => List.app attributes [IncludesDenoConfiguration]
  | None => attributes
  end.

(** ** More requests and pages to run the handler on *)

Module Pages.

(** [GET /x/oak@v12.0.0/mod.ts?source]. *)
Definition oak_source : Request :=
  {| url := "https://deno.land/x/oak@v12.0.0/mod.ts?source";
     parsed_url := Scenario.deno_land "/x/oak@v12.0.0/mod.ts" [("source", "")];
     req_headers := Scenario.html |}.

(** A module page that names its readme. *)
Definition module_page : Page Scenario.Json :=
  Build_Page "modinfo" (Some "README.md") None None "{}".

Definition module_info : FetchResponse Scenario.Json :=
  Build_FetchResponse 200 [("content-type", "application/json")]
    (Some module_page).

End Pages.

(** * Properties *)

(** ** Strings and search parameters *)

Lemma append_assoc (a b c : string) : (a ++ b) ++ c = a ++ (b ++ c).
Proof.
  induction a as [|x a IH]; simpl; [reflexivity|].
  now rewrite IH.
Qed.

Lemma append_empty_r (a : string) : a ++ "" = a.
Proof.
  induction a as [|x a IH]; simpl; [reflexivity|].
  now rewrite IH.
Qed.

Lemma startsWith_slice (s p : string) :
  Js.startsWith s p = true -> p ++ Js.slice (String.length p) s = s.
Proof.
  unfold Js.startsWith. revert s.
  induction p as [|c p IH]; intros s H; [reflexivity|].
  destruct s as [|d s]; simpl in *; [discriminate|].
  destruct (ascii_dec c d) as [->|]; [|discriminate].
  now rewrite (IH s H).
Qed.

Lemma has_set (name value : string) (l : SearchParams.t) :
  SearchParams.has name (SearchParams.set name value l) = true.
Proof.
  induction l as [|[k v] l IH]; simpl.
  - now rewrite String.eqb_refl.
  - destruct (String.eqb_spec k name) as [->|Hk]; simpl.
    + now rewrite String.eqb_refl.
    + rewrite (proj2 (String.eqb_neq k name) Hk). exact IH.
Qed.

Lemma delete_delete (name : string) (l : SearchParams.t) :
  SearchParams.delete name (SearchParams.delete name l)
  = SearchParams.delete name l.
Proof.
  unfold SearchParams.delete.
  induction l as [|[k v] l IH]; simpl; [reflexivity|].
  destruct (k =? name) eqn:E; simpl; [exact IH|].
  rewrite E. simpl. now rewrite IH.
Qed.

Lemma set_set (name value : string) (l : SearchParams.t) :
  SearchParams.set name value (SearchParams.set name value l)
  = SearchParams.set name value l.
Proof.
  induction l as [|[k v] l IH]; simpl.
  - now rewrite String.eqb_refl.
  - destruct (k =? name) eqn:E; simpl.
    + now rewrite String.eqb_refl, delete_delete.
    + now rewrite E, IH.
Qed.

Lemma set_absent (name value : string) (l : SearchParams.t) :
  SearchParams.has name l = false ->
  SearchParams.set name value l = (l ++ [(name, value)])%list.
Proof.
  induction l as [|[k v] l IH]; simpl; [reflexivity|].
  destruct (k =? name); simpl; [discriminate|].
  intros H. now rewrite (IH H).
Qed.

(** The path [getModulePath] writes ends in the sub-path it was given. *)
Lemma getModulePath_path (name : string) (version : option string) (p : string) :
  getModulePath name version (Some p) = getModulePath name version None ++ p.
Proof.
  unfold getModulePath.
  rewrite !append_assoc. reflexivity.
Qed.

Section Properties.

Variables (Json RawResponse : Type).
Variable accepts : Request -> list string -> option string.
Variable extractAltLineNumberReference : string -> option LineReference.

Implicit Types (env : Services Json RawResponse) (req : Request)
  (params : Params) (res : FetchResponse Json) (page : Page Json).

(** ** The shape of the handler *)

Lemma handler_GET_rendered req params :
  rendered accepts req params = true ->
  handler_GET accepts extractAltLineNumberReference req params =
  Await (Json := Json) (RawResponse := RawResponse) (page_lookup req params)
    (resolve_response extractAltLineNumberReference params (parsed_url req)
       (classify_view (URL.searchParams (parsed_url req)) (path params))).
Proof.
  unfold rendered, handler_GET, page_lookup. intros H.
  apply andb_true_iff in H as [Hstd Hhtml].
  apply negb_true_iff in Hstd. rewrite Hstd, Hhtml. reflexivity.
Qed.

Lemma run_rendered env req params res :
  rendered accepts req params = true ->
  env (page_lookup req params) = Some res ->
  run env (handler_GET accepts extractAltLineNumberReference req params) =
  let R := run env (resolve_response extractAltLineNumberReference params
                      (parsed_url req)
                      (classify_view (URL.searchParams (parsed_url req))
                         (path params)) res) in
  (fst R, Call (page_lookup req params) :: snd R).
Proof.
  intros Hr He. rewrite (handler_GET_rendered _ _ Hr).
  cbn [run]. rewrite He. now destruct (run env _).
Qed.

Lemma page_of_Some res page :
  page_of res = Some page ->
  Nat.eqb (status res) 404 = false /\ Nat.eqb (status res) 302 = false
  /\ Nat.eqb (status res) 301 = false /\ json res = Some page.
Proof.
  unfold page_of.
  destruct (Nat.eqb (status res) 404), (Nat.eqb (status res) 302),
    (Nat.eqb (status res) 301); simpl; intros H;
    try discriminate; auto.
Qed.

Lemma resolve_response_page params (u : URL.t) (v : Views) res page :
  page_of res = Some page ->
  resolve_response (RawResponse := RawResponse)
    extractAltLineNumberReference params u v res =
  resolve_page extractAltLineNumberReference params u (Build_Data page v).
Proof.
  intros H. apply page_of_Some in H as (H1 & H2 & H3 & H4).
  unfold resolve_response. now rewrite H1, H2, H3, H4.
Qed.

(** What [enrich] resolves to is a rendered page, and it resolves whenever
    the services answer. *)
Lemma enrich_renders env params (d : Data Json) :
  (forall r : Response Json RawResponse,
     fst (run env (enrich params d)) = Some r ->
     exists d' : Data Json, r = Render (Some d'))
  /\ ((forall c, env c <> None) -> fst (run env (enrich params d)) <> None).
Proof.
  unfold enrich.
  destruct (kind (data d) =? "modinfo"), (readme (data d)),
    (Views_eqb (view d) source && (kind (data d) =? "file")); cbn [run];
  try match goal with
      | |- context [env ?c] => let E := fresh "E" in destruct (env c) eqn:E
      end; cbn;
  (split;
   [ intros r Hr; inversion Hr; eexists; reflexivity
   | intros H; first [discriminate | exfalso; eapply H; eassumption] ]).
Qed.

Lemma fst_run_cons {A : Type} (R : option A * list (event Json))
  (e : event Json) :
  fst (let (r, t) := R in (r, e :: t)) = fst R.
Proof. now destruct R. Qed.

(** Once the URL has the [source] flag, the only 301 that [Response.redirect]
    can give is that of the [std] rewrite. *)
Lemma source_flag_no_permanent_redirect env req params (u u'' : URL.t) :
  parsed_url req = URL.searchParams_set u "source" "" ->
  std_legacy_prefix params u = false ->
  fst (run env (handler_GET accepts extractAltLineNumberReference req params))
  <> Some (Redirect u'' 301).
Proof.
  intros Hreq Hstd. unfold handler_GET. rewrite Hreq.
  change (std_legacy_prefix params (URL.searchParams_set u "source" ""))
    with (std_legacy_prefix params u).
  rewrite Hstd. destruct (isHTML accepts req); cbn [negb].
  - cbn [run]. destruct (env (Fetch _)) as [res|]; [|discriminate].
    rewrite fst_run_cons. unfold resolve_response.
    destruct (Nat.eqb (status res) 404); [discriminate|].
    destruct (Nat.eqb (status res) 302);
      [cbn; intros H; inversion H|].
    destruct (Nat.eqb (status res) 301); [discriminate|].
    destruct (json res) as [page|]; [|discriminate].
    unfold classify_view. cbn [URL.searchParams URL.searchParams_set].
    rewrite has_set. unfold resolve_page, doc_of_file, Response_redirect.
    cbn [data view kind Views_eqb andb].
    destruct (kind page =? "no-versions"); [discriminate|].
    destruct (extractAltLineNumberReference _);
      [cbn; intros H; inversion H|].
    intros H. destruct (proj1 (enrich_renders env params _) _ H) as [d' Hd'].
    discriminate Hd'.
  - unfold handlerRaw. destruct (version params =? ""); cbn [run].
    + destruct (env (GetVersionList _)) as [[vl|]|];
        [destruct (latest vl)| |]; discriminate.
    + destruct (env (FetchSource _ _ _)); discriminate.
Qed.

(** ** The view *)

(** C6: the view of a rendered request follows the precedence of section
    4.3 and nothing else: a [source] flag gives Source; otherwise a [doc]
    flag gives Doc; otherwise an empty sub-path gives Info; otherwise Doc. *)
Theorem view_precedence (searchParams : SearchParams.t) (path : string)
  (v : Views) :
  classify_view searchParams path = v <-> View_spec searchParams path v.
Proof.
  unfold classify_view, Js.truthy. split.
  - intros <-.
    destruct (SearchParams.has "source" searchParams) eqn:Hs;
      [now constructor|].
    destruct (SearchParams.has "doc" searchParams) eqn:Hd;
      [now constructor|].
    destruct (String.eqb_spec path ""); simpl; now constructor.
  - intros [Hs | Hs Hd | Hs Hd Hp | Hs Hd Hp]; rewrite Hs; try rewrite Hd;
      try reflexivity.
    + subst path. reflexivity.
    + apply String.eqb_neq in Hp. rewrite Hp. reflexivity.
Qed.

(** C9: the redirect from Doc to Source cannot loop.  The URL it sends the
    client to has the [source] flag, so it is classified Source whatever the
    sub-path, the condition of the redirect is false on it whatever the
    page, setting the flag again changes nothing, resolving a page for it
    never gives a 301 again, and neither does the handler on a request for
    that URL, whatever the services answer. *)
Theorem source_redirect_idempotent (u : URL.t) (params : Params)
  (page : Page Json) :
  let u' := URL.searchParams_set u "source" "" in
  let v' := classify_view (URL.searchParams u') (path params) in
  v' = source
  /\ doc_of_file (Build_Data page v') = false
  /\ URL.searchParams_set u' "source" "" = u'
  /\ (forall u'' : URL.t,
       resolve_page (RawResponse := RawResponse)
         extractAltLineNumberReference params u' (Build_Data page v')
       <> Resolved (Redirect u'' 301))
  /\ (forall (env : Services Json RawResponse) (req' : Request) (u'' : URL.t),
       parsed_url req' = u' ->
       std_legacy_prefix params u = false ->
       fst (run env (handler_GET accepts extractAltLineNumberReference
                       req' params))
       <> Some (Redirect u'' 301)).
Proof.
  intros u' v'.
  assert (Hv : v' = source).
  { unfold v', u', classify_view. simpl. now rewrite has_set. }
  rewrite Hv. repeat split.
  - unfold u', URL.searchParams_set. simpl. now rewrite set_set.
  - intros u''. unfold resolve_page, doc_of_file, enrich, Response_redirect.
    simpl.
    destruct (kind page =? "no-versions"); [discriminate|].
    destruct (extractAltLineNumberReference (URL.pathname u));
      [intros H; inversion H|].
    destruct (kind page =? "modinfo"), (readme page), (kind page =? "file");
      simpl; discriminate.
  - intros env req' u'' Hreq Hstd.
    exact (source_flag_no_permanent_redirect env req' params u u'' Hreq Hstd).
Qed.

(** ** The redirect of the standard library *)

(** C5: when the module is [std] and the path starts with [/x], the
    handler answers with a 301 to the same URL without that [/x]: the rest
    of the path, the query and the fragment are kept.  It does so whatever
    content negotiation would say and without any upstream call. *)
Theorem std_legacy_redirect env req params :
  name params = "std" ->
  Js.startsWith (URL.pathname (parsed_url req)) "/x" = true ->
  let stripped := Js.slice 2 (URL.pathname (parsed_url req)) in
  let target := URL.set_pathname (parsed_url req) stripped in
  run env (handler_GET accepts extractAltLineNumberReference req params)
  = (Some (Redirect target 301), [])
  /\ "/x" ++ stripped = URL.pathname (parsed_url req)
  /\ (Js.startsWith stripped "/" = true -> URL.pathname target = stripped)
  /\ URL.origin target = URL.origin (parsed_url req)
  /\ URL.searchParams target = URL.searchParams (parsed_url req)
  /\ URL.hash target = URL.hash (parsed_url req).
Proof.
  intros Hname Hx stripped target. repeat split.
  - unfold handler_GET, std_legacy_prefix. rewrite Hname, Hx. reflexivity.
  - exact (startsWith_slice _ "/x" Hx).
  - intros Hs. unfold target, URL.set_pathname. simpl. now rewrite Hs.
Qed.

(** ** The redirects that apiland asks for *)

(** C1, as the code has it: for a rendered request whose page lookup
    apiland answers with a 302 that carries the latest version, the handler
    answers with a redirect to the module path of that version, with the
    sub-path of the request, on the origin of the request.  The status is
    the default of [Response.redirect], 302, not 301, and the target is
    resolved from the path alone. *)
Theorem implicit_latest_redirect env req params res (latestVersion : string) :
  rendered accepts req params = true ->
  env (page_lookup req params) = Some res ->
  status res = 302 ->
  Headers.get "X-Deno-Latest-Version" (headers res) = Some latestVersion ->
  let target := getModulePath (name params) (Some latestVersion) (sub_path params) in
  run env (handler_GET accepts extractAltLineNumberReference req params)
  = (Some (Redirect (URL.resolve target (parsed_url req)) 302),
     [Call (page_lookup req params); Log target])
  /\ URL.origin (URL.resolve target (parsed_url req))
     = URL.origin (parsed_url req)
  /\ URL.pathname (URL.resolve target (parsed_url req))
     = getModulePath (name params) (Some latestVersion) None
       ++ match sub_path params with Some p => p | None => "" end.
Proof.
  intros Hr He Hs Hh target. split; [|split; [reflexivity|]].
  - rewrite (run_rendered _ _ _ _ Hr He).
    unfold resolve_response. rewrite Hs, Hh. reflexivity.
  - unfold target. simpl. destruct (sub_path params) as [p|].
    + apply getModulePath_path.
    + now rewrite append_empty_r.
Qed.

(** C10: in the branch of the 302 the handler reads the header
    [X-Deno-Latest-Version] and uses it as it comes; there is no branch for
    a response without it.  With the header the redirect goes to the module
    path of that version; without it the handler still answers, with a
    redirect to the module path that has no version.  In neither case does
    the request fail. *)
Theorem latest_version_header env req params res :
  rendered accepts req params = true ->
  env (page_lookup req params) = Some res ->
  status res = 302 ->
  let outcome :=
    fst (run env (handler_GET accepts extractAltLineNumberReference req params)) in
  (forall v : string,
     Headers.get "X-Deno-Latest-Version" (headers res) = Some v ->
     outcome = Some (Redirect
       (URL.resolve (getModulePath (name params) (Some v) (sub_path params))
          (parsed_url req)) 302))
  /\ (Headers.get "X-Deno-Latest-Version" (headers res) = None ->
      outcome = Some (Redirect
        (URL.resolve (getModulePath (name params) None (sub_path params))
           (parsed_url req)) 302))
  /\ outcome <> None.
Proof.
  intros Hr He Hs outcome.
  assert (Ho : outcome = Some (Redirect
            (URL.resolve
               (getModulePath (name params)
                  (Headers.get "X-Deno-Latest-Version" (headers res))
                  (sub_path params)) (parsed_url req)) 302)).
  { unfold outcome. rewrite (run_rendered _ _ _ _ Hr He).
    unfold resolve_response. rewrite Hs. reflexivity. }
  repeat split.
  - intros v Hv. now rewrite Ho, Hv.
  - intros Hv. now rewrite Ho, Hv.
  - rewrite Ho. discriminate.
Qed.

(** C7: for a rendered request whose page lookup apiland answers with a
    301 that carries the canonical sub-path, the handler answers with a 301
    whose [Location] is the module path of the same name and version with
    that sub-path in place of the one of the request. *)
Theorem canonical_path_redirect env req params res (newPath : string) :
  rendered accepts req params = true ->
  env (page_lookup req params) = Some res ->
  status res = 301 ->
  Headers.get "X-Deno-Module-Path" (headers res) = Some newPath ->
  let location :=
    getModulePath (name params) (Some (version params)) (Some newPath) in
  run env (handler_GET accepts extractAltLineNumberReference req params)
  = (Some (NewResponse None 301 [("Location", location)]),
     [Call (page_lookup req params)])
  /\ location
     = getModulePath (name params) (Some (version params)) None ++ newPath.
Proof.
  intros Hr He Hs Hh location. split.
  - rewrite (run_rendered _ _ _ _ Hr He).
    unfold resolve_response. rewrite Hs, Hh. reflexivity.
  - apply getModulePath_path.
Qed.

(** ** The redirects of a page *)

(** C2: for a rendered request in Doc view whose page is of kind [file],
    the handler answers with one 301 to the URL of the request with the
    [source] flag added at the end of the query; origin, path and fragment
    are those of the request. *)
Theorem doc_of_file_redirect env req params res page :
  rendered accepts req params = true ->
  classify_view (URL.searchParams (parsed_url req)) (path params) = doc ->
  env (page_lookup req params) = Some res ->
  page_of res = Some page ->
  kind page = "file" ->
  let target := URL.searchParams_set (parsed_url req) "source" "" in
  run env (handler_GET accepts extractAltLineNumberReference req params)
  = (Some (Redirect target 301), [Call (page_lookup req params)])
  /\ URL.searchParams target
     = (URL.searchParams (parsed_url req) ++ [("source", "")])%list
  /\ URL.origin target = URL.origin (parsed_url req)
  /\ URL.pathname target = URL.pathname (parsed_url req)
  /\ URL.hash target = URL.hash (parsed_url req).
Proof.
  intros Hr Hv He Hp Hk target. repeat split.
  - rewrite (run_rendered _ _ _ _ Hr He). rewrite Hv.
    rewrite (resolve_response_page _ _ _ _ _ Hp).
    unfold resolve_page, doc_of_file. simpl. rewrite Hk. reflexivity.
  - unfold target. simpl. apply set_absent.
    unfold classify_view in Hv.
    destruct (SearchParams.has "source" _); [discriminate|reflexivity].
Qed.

(** C8, as the code has it: for a rendered request that received a page
    whose kind is not [no-versions] and that the redirect to Source view
    did not take, a line reference in the path gives a 302 to the path
    without it, with the [source] flag and the fragment [L<line>]; with no
    line reference the page is enriched and rendered: no redirect, and no
    failure unless a service fails. *)
Theorem line_reference_redirect env req params res page :
  rendered accepts req params = true ->
  env (page_lookup req params) = Some res ->
  page_of res = Some page ->
  kind page <> "no-versions" ->
  let url := parsed_url req in
  let d := Build_Data page (classify_view (URL.searchParams url) (path params)) in
  doc_of_file d = false ->
  let outcome :=
    run env (handler_GET accepts extractAltLineNumberReference req params) in
  (forall ln : LineReference,
     extractAltLineNumberReference (URL.pathname url) = Some ln ->
     let target :=
       URL.set_hash
         (URL.searchParams_set (URL.set_pathname url (rest ln)) "source" "")
         ("L" ++ Js.string_of_number (line ln)) in
     outcome = (Some (Redirect target 302), [Call (page_lookup req params)])
     /\ SearchParams.has "source" (URL.searchParams target) = true
     /\ URL.hash target = "L" ++ Js.string_of_number (line ln)
     /\ (Js.startsWith (rest ln) "/" = true -> URL.pathname target = rest ln))
  /\ (extractAltLineNumberReference (URL.pathname url) = None ->
      outcome = (fst (run env (enrich params d)),
                 Call (page_lookup req params) :: snd (run env (enrich params d)))
      /\ (forall r, fst outcome = Some r -> exists d', r = Render (Some d'))
      /\ ((forall c, env c <> None) -> fst outcome <> None)).
Proof.
  intros Hr He Hp Hk url d Hd outcome.
  assert (Ho : outcome =
    (fst (run env (resolve_page extractAltLineNumberReference params url d)),
     Call (page_lookup req params)
       :: snd (run env (resolve_page extractAltLineNumberReference params url d)))).
  { unfold outcome. rewrite (run_rendered _ _ _ _ Hr He).
    now rewrite (resolve_response_page _ _ _ _ _ Hp). }
  apply String.eqb_neq in Hk.
  unfold resolve_page in Ho. fold d in Ho. simpl in Ho.
  rewrite Hk, Hd in Ho. split.
  - intros ln Hln target. rewrite Hln in Ho. repeat split.
    + exact Ho.
    + apply has_set.
    + intros Hs. unfold target. simpl. now rewrite Hs.
  - intros Hln. rewrite Hln in Ho. rewrite Ho. repeat split.
    + apply enrich_renders.
    + apply enrich_renders.
Qed.

(** ** The raw path *)

(** C3, as the code has it: a request that the redirect of [std] does not
    answer and that content negotiation does not give to [text/html] is
    answered by [handlerRaw] alone, which makes exactly one upstream call,
    the version list when the version is empty and the source otherwise,
    and never a page lookup. *)
Theorem raw_request_one_call env req params :
  std_legacy_prefix params (parsed_url req) = false ->
  isHTML accepts req = false ->
  let c :=
    if version params =? "" then GetVersionList (name params)
    else FetchSource (name params) (version params) (path params) in
  handler_GET (Json := Json) (RawResponse := RawResponse)
    accepts extractAltLineNumberReference req params
  = handlerRaw req params
  /\ snd (run env (handlerRaw req params)) = [Call c]
  /\ List.length (upstream_calls (snd (run env (handlerRaw req params)))) = 1
  /\ existsb is_page_lookup (snd (run env (handlerRaw req params))) = false.
Proof.
  intros Hstd Hhtml c.
  assert (Ht : snd (run env (handlerRaw req params)) = [Call c]).
  { unfold handlerRaw, c.
    destruct (version params =? ""); cbn [run].
    - destruct (env (GetVersionList (name params))) as [[vl|]|];
        [destruct (latest vl)| |]; reflexivity.
    - destruct (env (FetchSource _ _ _)); reflexivity. }
  split; [|rewrite Ht; repeat split].
  - unfold handler_GET. now rewrite Hstd, Hhtml.
  - unfold c. now destruct (version params =? "").
Qed.

(** C4: with an empty version [handlerRaw] asks for the version list.  No
    entry for the module: a 404 whose body says so.  No latest version: a
    404 whose body says so.  Otherwise a 302 whose [Location] is the module
    path of the latest version with the sub-path of the request, and whose
    [x-deno-warning] header names that version. *)
Theorem raw_implicit_latest env req params :
  version params = "" ->
  let name := name params in
  let outcome := run env (handlerRaw req params) in
  (env (GetVersionList name) = Some None ->
   outcome = (Some (NewResponse
                (Some ("The module '" ++ name ++ "' does not exist"))
                404 RAW_HEADERS),
              [Call (GetVersionList name)]))
  /\ (forall vl : VersionList,
       env (GetVersionList name) = Some (Some vl) ->
       latest vl = None ->
       outcome = (Some (NewResponse
                    (Some ("The module '" ++ name ++ "' has no latest version."))
                    404 RAW_HEADERS),
                  [Call (GetVersionList name)]))
  /\ (forall (vl : VersionList) (v : string),
       env (GetVersionList name) = Some (Some vl) ->
       latest vl = Some v ->
       outcome = (Some (NewResponse None 302
                    [("Access-Control-Allow-Origin", "*");
                     ("Location", getModulePath name (Some v) (sub_path params));
                     ("x-deno-warning",
                      "Implicitly using latest version (" ++ v ++ ") for "
                      ++ url req)]),
                  [Call (GetVersionList name)])).
Proof.
  intros Hv name0 outcome.
  unfold outcome, handlerRaw. rewrite Hv. cbn [String.eqb run].
  fold name0. repeat split.
  - intros He. simpl in He. now rewrite He.
  - intros vl He Hl. simpl in He. now rewrite He, Hl.
  - intros vl v He Hl. simpl in He. rewrite He, Hl.
    unfold sub_path, Js.truthy.
    destruct (String.eqb_spec (path params) "") as [->|]; reflexivity.
Qed.

End Properties.

(** * The theorems at work, and where the specification departs from the code *)

(** [GET /x/oak/mod.ts?source] with [v12.0.0] the latest version: a 302 to
    [/x/oak@v12.0.0/mod.ts]. *)
Lemma implicit_latest_redirect_witness :
  rendered Scenario.accepts Scenario.oak_latest Scenario.oak_latest_params = true
  /\ run (Scenario.services Scenario.implicit_latest None)
       (Scenario.handler_GET Scenario.oak_latest Scenario.oak_latest_params)
     = (Some (Redirect (Scenario.deno_land "/x/oak@v12.0.0/mod.ts" []) 302),
        [Call (page_lookup Scenario.oak_latest Scenario.oak_latest_params);
         Log "/x/oak@v12.0.0/mod.ts"]).
Proof.
  split; [reflexivity|].
  refine (proj1 (implicit_latest_redirect Scenario.Json Scenario.RawResponse
            Scenario.accepts Scenario.extractAltLineNumberReference
            (Scenario.services Scenario.implicit_latest None)
            Scenario.oak_latest Scenario.oak_latest_params
            Scenario.implicit_latest "v12.0.0" _ _ _ _)); reflexivity.
Defined.

(** C1 fails as stated: on that request the status is 302, not 301, and the
    query [?source] of the request is not in the target. *)
Lemma implicit_latest_not_permanent :
  rendered Scenario.accepts Scenario.oak_latest Scenario.oak_latest_params = true
  /\ version Scenario.oak_latest_params = ""
  /\ status Scenario.implicit_latest = 302
  /\ fst (run (Scenario.services Scenario.implicit_latest None)
            (Scenario.handler_GET Scenario.oak_latest Scenario.oak_latest_params))
     = Some (Redirect (Scenario.deno_land "/x/oak@v12.0.0/mod.ts" []) 302)
  /\ (forall u : URL.t,
       fst (run (Scenario.services Scenario.implicit_latest None)
              (Scenario.handler_GET Scenario.oak_latest Scenario.oak_latest_params))
       <> Some (Redirect u 301))
  /\ URL.searchParams (parsed_url Scenario.oak_latest) = [("source", "")].
Proof.
  repeat split. intros u. discriminate.
Qed.

(** The same request when apiland leaves the header out: the redirect goes
    back to the path without a version. *)
Lemma latest_version_header_witness :
  rendered Scenario.accepts Scenario.oak_latest Scenario.oak_latest_params = true
  /\ fst (run (Scenario.services (Build_FetchResponse 302 [] None) None)
            (Scenario.handler_GET Scenario.oak_latest Scenario.oak_latest_params))
     = Some (Redirect (Scenario.deno_land "/x/oak/mod.ts" []) 302).
Proof.
  split; [reflexivity|].
  refine (proj1 (proj2 (latest_version_header Scenario.Json Scenario.RawResponse
            Scenario.accepts Scenario.extractAltLineNumberReference
            (Scenario.services (Build_FetchResponse 302 [] None) None)
            Scenario.oak_latest Scenario.oak_latest_params
            (Build_FetchResponse 302 [] None) _ _ _)) _); reflexivity.
Defined.

(** [GET /x/oak@v12.0.0/examples] when the index module of the directory
    is [/examples/mod.ts]. *)
Lemma canonical_path_redirect_witness :
  rendered Scenario.accepts Scenario.oak_dir Scenario.oak_dir_params = true
  /\ run (Scenario.services Scenario.canonical_path None)
       (Scenario.handler_GET Scenario.oak_dir Scenario.oak_dir_params)
     = (Some (NewResponse None 301
                [("Location", "/x/oak@v12.0.0/examples/mod.ts")]),
        [Call (page_lookup Scenario.oak_dir Scenario.oak_dir_params)]).
Proof.
  split; [reflexivity|].
  refine (proj1 (canonical_path_redirect Scenario.Json Scenario.RawResponse
            Scenario.accepts Scenario.extractAltLineNumberReference
            (Scenario.services Scenario.canonical_path None)
            Scenario.oak_dir Scenario.oak_dir_params
            Scenario.canonical_path "/examples/mod.ts" _ _ _ _)); reflexivity.
Defined.

(** [GET /x/oak@v12.0.0/mod.ts?doc] when [mod.ts] is only a file. *)
Lemma doc_of_file_redirect_witness :
  rendered Scenario.accepts Scenario.oak_doc Scenario.oak_params = true
  /\ run (Scenario.services (Scenario.ok "file") None)
       (Scenario.handler_GET Scenario.oak_doc Scenario.oak_params)
     = (Some (Redirect
                (Scenario.deno_land "/x/oak@v12.0.0/mod.ts"
                   [("doc", ""); ("source", "")]) 301),
        [Call (page_lookup Scenario.oak_doc Scenario.oak_params)]).
Proof.
  split; [reflexivity|].
  refine (proj1 (doc_of_file_redirect Scenario.Json Scenario.RawResponse
            Scenario.accepts Scenario.extractAltLineNumberReference
            (Scenario.services (Scenario.ok "file") None)
            Scenario.oak_doc Scenario.oak_params
            (Scenario.ok "file") (Scenario.page "file") _ _ _ _ _));
    reflexivity.
Defined.

(** [GET /x/oak@v12.0.0/mod.ts:10:3?source]: a 302 to
    [/x/oak@v12.0.0/mod.ts?source#L10]. *)
Lemma line_reference_redirect_witness :
  rendered Scenario.accepts Scenario.oak_line_source Scenario.oak_line_params = true
  /\ run (Scenario.services (Scenario.ok "file") None)
       (Scenario.handler_GET Scenario.oak_line_source Scenario.oak_line_params)
     = (Some (Redirect
                (URL.mk "https://deno.land" "/x/oak@v12.0.0/mod.ts"
                   [("source", "")] "L10") 302),
        [Call (page_lookup Scenario.oak_line_source Scenario.oak_line_params)]).
Proof.
  split; [reflexivity|].
  refine (proj1 (proj1 (line_reference_redirect Scenario.Json Scenario.RawResponse
            Scenario.accepts Scenario.extractAltLineNumberReference
            (Scenario.services (Scenario.ok "file") None)
            Scenario.oak_line_source Scenario.oak_line_params
            (Scenario.ok "file") (Scenario.page "file") _ _ _ _ _)
            {| rest := "/x/oak@v12.0.0/mod.ts"; line := 10 |} _));
    try reflexivity.
  apply String.eqb_neq. reflexivity.
Defined.

(** C8 fails as stated: a rendered request whose path has a line reference
    and that no redirect has answered is rendered, not redirected, when the
    module does not exist and when it has no versions. *)
Lemma line_reference_not_redirected :
  rendered Scenario.accepts Scenario.oak_line Scenario.oak_line_params = true
  /\ Scenario.extractAltLineNumberReference
       (URL.pathname (parsed_url Scenario.oak_line))
     = Some {| rest := "/x/oak@v12.0.0/mod.ts"; line := 10 |}
  /\ run (Scenario.services Scenario.not_found None)
       (Scenario.handler_GET Scenario.oak_line Scenario.oak_line_params)
     = (Some (Render None),
        [Call (page_lookup Scenario.oak_line Scenario.oak_line_params)])
  /\ run (Scenario.services (Scenario.ok "no-versions") None)
       (Scenario.handler_GET Scenario.oak_line Scenario.oak_line_params)
     = (Some (Render (Some (Build_Data (Scenario.page "no-versions") doc))),
        [Call (page_lookup Scenario.oak_line Scenario.oak_line_params)]).
Proof.
  repeat split.
Qed.

(** [GET /x/oak/mod.ts] for the file: one call, for the version list. *)
Lemma raw_request_one_call_witness :
  isHTML Scenario.accepts Scenario.oak_raw = false
  /\ snd (run (Scenario.services Scenario.not_found Scenario.oak_versions)
            (handlerRaw Scenario.oak_raw Scenario.oak_latest_params))
     = [Call (GetVersionList "oak")].
Proof.
  split; [reflexivity|].
  refine (proj1 (proj2 (raw_request_one_call Scenario.Json Scenario.RawResponse
            Scenario.accepts Scenario.extractAltLineNumberReference
            (Scenario.services Scenario.not_found Scenario.oak_versions)
            Scenario.oak_raw Scenario.oak_latest_params _ _))); reflexivity.
Defined.

(** C3 fails as stated: [GET /x/std@0.150.0/fmt/colors.ts] for the file is
    not negotiated to [text/html], and it is answered by the redirect of
    [std], with no upstream call, not by [handlerRaw], which would fetch
    the source. *)
Lemma std_request_not_raw :
  isHTML Scenario.accepts Scenario.std_legacy = false
  /\ run (Scenario.services Scenario.not_found Scenario.oak_versions)
       (Scenario.handler_GET Scenario.std_legacy Scenario.std_legacy_params)
     = (Some (Redirect
                (Scenario.deno_land "/std@0.150.0/fmt/colors.ts" []) 301),
        [])
  /\ run (Scenario.services Scenario.not_found Scenario.oak_versions)
       (handlerRaw Scenario.std_legacy Scenario.std_legacy_params)
     = (Some (FromSource ("export * from ..." : Scenario.RawResponse)),
        [Call (FetchSource "std" "0.150.0" "fmt/colors.ts")]).
Proof.
  repeat split.
Qed.

(** [GET /x/oak/mod.ts] for the file, [v12.0.0] the latest version. *)
Lemma raw_implicit_latest_witness :
  version Scenario.oak_latest_params = ""
  /\ run (Scenario.services Scenario.not_found Scenario.oak_versions)
       (handlerRaw Scenario.oak_raw Scenario.oak_latest_params)
     = (Some (NewResponse None 302
                [("Access-Control-Allow-Origin", "*");
                 ("Location", "/x/oak@v12.0.0/mod.ts");
                 ("x-deno-warning",
                  "Implicitly using latest version (v12.0.0) for https://deno.land/x/oak/mod.ts")]),
        [Call (GetVersionList "oak")]).
Proof.
  split; [reflexivity|].
  refine (proj2 (proj2 (raw_implicit_latest Scenario.Json Scenario.RawResponse
            (Scenario.services Scenario.not_found Scenario.oak_versions)
            Scenario.oak_raw Scenario.oak_latest_params _))
            {| latest := Some "v12.0.0"; versions := ["v12.0.0"; "v11.1.0"] |}
            "v12.0.0" _ _); reflexivity.
Defined.

(** [GET /x/std@0.150.0/fmt/colors.ts]: a 301 to
    [/std@0.150.0/fmt/colors.ts]. *)
Lemma std_legacy_redirect_witness :
  name Scenario.std_legacy_params = "std"
  /\ run (Scenario.services Scenario.not_found None)
       (Scenario.handler_GET Scenario.std_legacy Scenario.std_legacy_params)
     = (Some (Redirect
                (Scenario.deno_land "/std@0.150.0/fmt/colors.ts" []) 301),
        []).
Proof.
  split; [reflexivity|].
  refine (proj1 (std_legacy_redirect Scenario.Json Scenario.RawResponse
            Scenario.accepts Scenario.extractAltLineNumberReference
            (Scenario.services Scenario.not_found None)
            Scenario.std_legacy Scenario.std_legacy_params _ _)); reflexivity.
Defined.

(** ** The scenarios of section 8 *)

(** Scenario A: a module at a version, no sub-path: the Info view is
    rendered. *)
Example scenario_info_view :
  run (Scenario.services (Scenario.ok "modinfo") None)
    (Scenario.handler_GET Scenario.oak_module Scenario.oak_module_params)
  = (Some (Render (Some (Build_Data (Scenario.page "modinfo") info))),
     [Call (Fetch (URL.mk "https://apiland.deno.dev"
                     "/v2/pages/mod/info/oak/v12.0.0/" [] ""))]).
Proof. reflexivity. Qed.

(** Scenario C, second request: the file at the version the 302 named is
    what [fetchSource] answers, after that one call. *)
Example scenario_raw_file :
  run (Scenario.services Scenario.not_found Scenario.oak_versions)
    (Scenario.handler_GET Scenario.oak_raw Scenario.oak_params)
  = (Some (FromSource ("export * from ..." : Scenario.RawResponse)),
     [Call (FetchSource "oak" "v12.0.0" "mod.ts")]).
Proof. reflexivity. Qed.

(** Scenario E: a module without versions is rendered as such. *)
Example scenario_no_versions :
  fst (run (Scenario.services (Scenario.ok "no-versions") None)
         (Scenario.handler_GET Scenario.oak_module Scenario.oak_module_params))
  = Some (Render (Some (Build_Data (Scenario.page "no-versions") info))).
Proof. reflexivity. Qed.

(** * More of the handler *)

Section Outcomes.

Variables (Json RawResponse : Type).
Variable accepts : Request -> list string -> option string.
Variable extractAltLineNumberReference : string -> option LineReference.

Implicit Types (env : Services Json RawResponse) (req : Request)
  (params : Params) (res : FetchResponse Json) (page : Page Json)
  (d : Data Json) (r : Response Json RawResponse) (t : list (event Json)).

(** What [enrich] did when it resolved. *)
Lemma enrich_inversion env params d r t :
  run env (enrich params d) = (Some r, t) ->
  (exists entry f,
     (kind (data d) =? "modinfo") = true /\ readme (data d) = Some entry
     /\ env (GetReadme (name params) (version params) entry) = Some f
     /\ r = Render (Some (Build_Data (set_readmeFile (data d) f) (view d)))
     /\ t = [Call (GetReadme (name params) (version params) entry)])
  \/ (exists f,
        ((kind (data d) =? "modinfo") = false \/ readme (data d) = None)
        /\ view d = source /\ kind (data d) = "file"
        /\ env (GetRawFile (name params) (version params) (file_path params))
           = Some f
        /\ r = Render (Some (Build_Data (set_file (data d) f) (view d)))
        /\ t = [Call (GetRawFile (name params) (version params)
                        (file_path params))])
  \/ (((kind (data d) =? "modinfo") = false \/ readme (data d) = None)
      /\ (Views_eqb (view d) source && (kind (data d) =? "file")) = false
      /\ r = Render (Some d) /\ t = []).
Proof.
  unfold enrich, file_path.
  destruct (kind (data d) =? "modinfo") eqn:Hm;
    destruct (readme (data d)) as [entry|] eqn:Hr;
    try (cbn [run];
         destruct (env (GetReadme _ _ _)) as [f|] eqn:He; cbn;
         intros H; inversion H; subst;
         left; exists entry, f; repeat split; assumption);
    (destruct (Views_eqb (view d) source && (kind (data d) =? "file")) eqn:Hs;
     [ cbn [run];
       destruct (env (GetRawFile _ _ _)) as [f|] eqn:He; cbn;
       intros H; inversion H; subst;
       apply andb_true_iff in Hs as [Hv Hk];
       right; left; exists f;
       repeat split; auto;
       [ now destruct (view d) | now apply String.eqb_eq ]
     | cbn; intros H; inversion H; subst;
       right; right; repeat split; auto ]).
Qed.

(** What the handler did when it rendered a page. *)
Lemma render_inversion env req params (o : option (Data Json)) t :
  run env (handler_GET accepts extractAltLineNumberReference req params)
  = (Some (Render o), t) ->
  rendered accepts req params = true
  /\ exists res t',
       env (page_lookup req params) = Some res
       /\ t = Call (page_lookup req params) :: t'
       /\ ((status res = 404 /\ o = None /\ t' = [])
           \/ exists page,
                page_of res = Some page
                /\ let d0 := Build_Data page
                     (classify_view (URL.searchParams (parsed_url req))
                        (path params)) in
                   (kind page = "no-versions" /\ o = Some d0 /\ t' = [])
                   \/ (kind page <> "no-versions"
                       /\ doc_of_file d0 = false
                       /\ extractAltLineNumberReference
                            (URL.pathname (parsed_url req)) = None
                       /\ run env (enrich params d0) = (Some (Render o), t'))).
Proof.
  unfold handler_GET, rendered.
  destruct (std_legacy_prefix params (parsed_url req)); [discriminate|].
  destruct (isHTML accepts req); cbn [negb andb].
  2:{ unfold handlerRaw. destruct (version params =? ""); cbn [run].
      - destruct (env (GetVersionList _)) as [[vl|]|];
          [destruct (latest vl)| |]; discriminate.
      - destruct (env (FetchSource _ _ _)); discriminate. }
  cbn [run]. fold (page_lookup (Json := Json) req params).
  destruct (env (page_lookup req params)) as [res|] eqn:He; [|discriminate].
  destruct (run env (resolve_response _ _ _ _ res)) as [o' t'] eqn:Hrun.
  intros H. inversion H; subst o' t. clear H.
  split; [reflexivity|]. exists res, t'. split; [reflexivity|].
  split; [reflexivity|].
  unfold resolve_response in Hrun. unfold page_of.
  destruct (Nat.eqb_spec (status res) 404) as [H404|_].
  { cbn in Hrun. inversion Hrun. left. auto. }
  destruct (Nat.eqb (status res) 302); [discriminate Hrun|].
  destruct (Nat.eqb (status res) 301); [discriminate Hrun|].
  cbn [orb]. destruct (json res) as [page|]; [|discriminate Hrun].
  right. exists page. split; [reflexivity|]. cbn zeta.
  unfold resolve_page in Hrun.
  destruct (String.eqb_spec (kind (data (Build_Data page
     (classify_view (URL.searchParams (parsed_url req)) (path params)))))
     "no-versions") as [Hk|Hk].
  { cbn in Hrun. inversion Hrun. left. auto. }
  right. split; [exact Hk|].
  destruct (doc_of_file _); [discriminate Hrun|]. split; [reflexivity|].
  destruct (extractAltLineNumberReference _); [discriminate Hrun|].
  split; [reflexivity|]. exact Hrun.
Qed.

End Outcomes.

Section HandlerInvariants.

Variables (Json RawResponse : Type).
Variable accepts : Request -> list string -> option string.
Variable extractAltLineNumberReference : string -> option LineReference.

Implicit Types (env : Services Json RawResponse) (req : Request)
  (params : Params) (res : FetchResponse Json) (page : Page Json)
  (d : Data Json) (r : Response Json RawResponse) (t : list (event Json)).

Ltac handler_cases env :=
  unfold handler_GET, handlerRaw, resolve_response, resolve_page, enrich,
    Response_redirect;
  repeat (cbn [run negb];
          match goal with
          | |- context [match env ?c with _ => _ end] => destruct (env c)
          | |- context [if ?b then _ else _] => destruct b
          | |- context [match json ?res with _ => _ end] =>
              destruct (json res)
          | |- context [match latest ?v with _ => _ end] =>
              destruct (latest v)
          | |- context [match readme ?p with _ => _ end] =>
              destruct (readme p)
          | |- context [match ?f (URL.pathname ?u) with _ => _ end] =>
              destruct (f (URL.pathname u))
          | |- context [match ?x with Some _ => _ | None => _ end] =>
              is_var x; destruct x
          end).

(** X1: whatever the services answer, a request costs at most two upstream
    calls, at most one of them is a page lookup, and a second call is made
    only on the way to a rendered page: a response the handler builds
    itself, redirect or 404, costs at most one. *)
Theorem upstream_calls_bounded env req params :
  let outcome :=
    run env (handler_GET accepts extractAltLineNumberReference req params) in
  List.length (upstream_calls (snd outcome)) <= 2
  /\ List.length (filter is_page_lookup (snd outcome)) <= 1
  /\ match fst outcome with
     | Some (Redirect _ _) | Some (NewResponse _ _ _) =>
         List.length (upstream_calls (snd outcome)) <= 1
     | _ => True
     end.
Proof.
  cbv zeta. handler_cases env; cbn; repeat split; repeat constructor.
Qed.

(** X2: a page of kind [file] that the handler renders in source view
    carries its file: what [getRawFile] answered for the module, the
    version and the path of the request, fetched right after the page
    lookup. *)
Theorem source_file_fetched env req params d t :
  run env (handler_GET accepts extractAltLineNumberReference req params)
  = (Some (Render (Some d)), t) ->
  view d = source ->
  kind (data d) = "file" ->
  exists f : Json,
    file (data d) = Some f
    /\ env (GetRawFile (name params) (version params) (file_path params))
       = Some f
    /\ t = [Call (page_lookup req params);
            Call (GetRawFile (name params) (version params) (file_path params))].
Proof.
  intros H Hv Hk.
  apply render_inversion in H
    as (_ & res & t' & _ & -> & [(_ & Ho & _) | (page & _ & Hcase)]);
    [discriminate Ho|].
  cbn zeta in Hcase.
  destruct Hcase as [(Hnv & Ho & _) | (_ & _ & _ & Hen)].
  { inversion Ho; subst d. cbn in Hk. rewrite Hk in Hnv. discriminate Hnv. }
  apply enrich_inversion in Hen
    as [(entry & f & Hm & _ & _ & Hr & _)
       | [(f & _ & _ & _ & He & Hr & ->) | (_ & Hs & Hr & _)]];
    inversion Hr; subst d; cbn in *.
  - rewrite Hk in Hm. discriminate Hm.
  - exists f. auto.
  - rewrite Hv, Hk in Hs. discriminate Hs.
Qed.

(** X3: a page of kind [modinfo] that names a readme is rendered, in any
    view, with the readme file [getReadme] answered for that entry. *)
Theorem readme_fetched env req params d t (entry : Json) :
  run env (handler_GET accepts extractAltLineNumberReference req params)
  = (Some (Render (Some d)), t) ->
  kind (data d) = "modinfo" ->
  readme (data d) = Some entry ->
  exists f : Json,
    readmeFile (data d) = Some f
    /\ env (GetReadme (name params) (version params) entry) = Some f
    /\ t = [Call (page_lookup req params);
            Call (GetReadme (name params) (version params) entry)].
Proof.
  intros H Hk Hentry.
  apply render_inversion in H
    as (_ & res & t' & _ & -> & [(_ & Ho & _) | (page & _ & Hcase)]);
    [discriminate Ho|].
  cbn zeta in Hcase.
  destruct Hcase as [(Hnv & Ho & _) | (_ & _ & _ & Hen)].
  { inversion Ho; subst d. cbn in Hk. rewrite Hk in Hnv. discriminate Hnv. }
  apply enrich_inversion in Hen
    as [(entry' & f & _ & Hr' & He & Hr & ->)
       | [(f & _ & _ & Hf & _ & Hr & _) | (Hno & _ & Hr & _)]];
    inversion Hr; subst d; cbn in *.
  - rewrite Hr' in Hentry. inversion Hentry; subst entry'.
    exists f. auto.
  - rewrite Hk in Hf. discriminate Hf.
  - destruct Hno as [Hm | Hnone].
    + rewrite Hk in Hm. discriminate Hm.
    + rewrite Hnone in Hentry. discriminate Hentry.
Qed.

(** X4: a page is rendered only for a request that was negotiated to
    [text/html], and only after the page lookup. *)
Theorem render_only_html env req params (o : option (Data Json)) t :
  run env (handler_GET accepts extractAltLineNumberReference req params)
  = (Some (Render o), t) ->
  isHTML accepts req = true
  /\ hd_error t = Some (Call (page_lookup req params)).
Proof.
  intros H.
  apply render_inversion in H as (Hr & res & t' & _ & -> & _).
  split; [|reflexivity].
  unfold rendered in Hr. now apply andb_true_iff in Hr.
Qed.

(** X5: the responses the handler builds itself have status 301, 302 or
    404; they name a location exactly when the status is not 404; and a
    [Response.redirect] stays on the origin of the request. *)
Theorem responses_well_formed env req params :
  match fst (run env (handler_GET accepts extractAltLineNumberReference
                        req params)) with
  | Some r =>
      match response_status r with
      | Some s =>
          (s = 301 \/ s = 302 \/ s = 404)
          /\ has_location r = negb (Nat.eqb s 404)
      | None => True
      end
      /\ forall (u : URL.t) (s : nat),
           r = Redirect u s -> URL.origin u = URL.origin (parsed_url req)
  | None => True
  end.
Proof.
  handler_cases env; cbn; try exact I;
    (split; [ auto | intros ? ? Heq; inversion Heq; reflexivity ]).
Qed.

(** X6: every response [handlerRaw] builds itself allows any origin; it is
    either a 404 with a body and neither [Location] nor warning, or the
    302 without a body, with a [Location] and with the warning. *)
Theorem raw_responses_headers env req params :
  match fst (run env (handlerRaw req params)) with
  | Some (NewResponse body s h) =>
      Headers.get "Access-Control-Allow-Origin" h = Some "*"
      /\ ((s = 404 /\ body <> None
           /\ Headers.get "Location" h = None
           /\ Headers.get "x-deno-warning" h = None)
          \/ (s = 302 /\ body = None
              /\ Headers.get "Location" h <> None
              /\ Headers.get "x-deno-warning" h <> None))
  | _ => True
  end.
Proof.
  handler_cases env; cbn; try exact I;
    (split; [reflexivity|]);
    first [ solve [left; repeat split; discriminate]
          | solve [right; repeat split; discriminate] ].
Qed.

(** X7: the rewrite of line 62 makes the path strictly shorter, so it
    cannot go on forever; and from a path that starts with [/x/std] it
    leads to a path it does not apply to again. *)
Theorem std_redirect_ends req params :
  Js.startsWith (URL.pathname (parsed_url req)) "/x" = true ->
  let target :=
    URL.set_pathname (parsed_url req)
      (Js.slice 2 (URL.pathname (parsed_url req))) in
  String.length (URL.pathname target)
  < String.length (URL.pathname (parsed_url req))
  /\ (Js.startsWith (URL.pathname (parsed_url req)) "/x/std" = true ->
      std_legacy_prefix params target = false).
Proof.
  intros Hx target. unfold target, URL.set_pathname, std_legacy_prefix.
  cbn [URL.pathname].
  remember (URL.pathname (parsed_url req)) as p eqn:Hp. clear Hp.
  split.
  - pose proof (startsWith_slice p "/x" Hx) as E. cbn [String.length] in E.
    remember (Js.slice 2 p) as rest eqn:Hrest. clear Hrest. subst p.
    destruct (Js.startsWith rest "/"); cbn; lia.
  - intros Hstd. rewrite <- (startsWith_slice p "/x/std" Hstd).
    cbn. apply andb_false_r.
Qed.

Ltac handler_cases_eqn env :=
  unfold handler_GET, handlerRaw, resolve_response, resolve_page, enrich,
    Response_redirect;
  repeat (cbn [run negb];
          match goal with
          | |- context [match env ?c with _ => _ end] =>
              destruct (env c) eqn:?
          | |- context [if ?b then _ else _] => destruct b eqn:?
          | |- context [match json ?res with _ => _ end] =>
              destruct (json res) eqn:?
          | |- context [match latest ?v with _ => _ end] =>
              destruct (latest v) eqn:?
          | |- context [match readme ?p with _ => _ end] =>
              destruct (readme p) eqn:?
          | |- context [match ?f (URL.pathname ?u) with _ => _ end] =>
              destruct (f (URL.pathname u)) eqn:?
          | |- context [match ?x with Some _ => _ | None => _ end] =>
              is_var x; destruct x
          end).

(** X8: the handler asks [getRawFile] for nothing but the file of the
    request, and only when the page lookup answered with a page of kind
    [file] and the view is Source. *)
Theorem raw_file_only_for_source env req params (n v p : string) :
  In (Call (GetRawFile n v p))
     (snd (run env (handler_GET accepts extractAltLineNumberReference
                      req params))) ->
  (n, v, p) = (name params, version params, file_path params)
  /\ classify_view (URL.searchParams (parsed_url req)) (path params) = source
  /\ exists res page,
       env (page_lookup req params) = Some res
       /\ json res = Some page
       /\ kind page = "file".
Proof.
  unfold page_lookup, file_path.
  handler_cases_eqn env; cbn;
    intros Hin;
    repeat match goal with
           | H : _ \/ _ |- _ => destruct H
           | H : False |- _ => destruct H
           | H : Call _ = Call _ |- _ => inversion H; clear H
           end;
    try discriminate.
  all: match goal with
       | Hs : (Views_eqb _ source && (kind _ =? "file"))%bool = true |- _ =>
           apply andb_true_iff in Hs as [Hview Hkind]
       end.
  all: cbn in Hview, Hkind; apply String.eqb_eq in Hkind.
  all: split; [reflexivity|]; split;
       [ now destruct (classify_view _ _) | eauto ].
Qed.

End HandlerInvariants.

(** * The components *)

(** ** Splitting at a character *)

Lemma split_from_no_sep (sep : ascii) (h : string) :
  has_char sep h = false -> split_from sep h = (h, []).
Proof.
  induction h as [|c h IH]; cbn; [reflexivity|].
  intros H. apply orb_false_iff in H as [Hc Hh].
  now rewrite (IH Hh), Hc.
Qed.

Lemma split_from_app (sep : ascii) (h r : string) :
  has_char sep h = false ->
  split_from sep (h ++ String sep r)
  = (h, fst (split_from sep r) :: snd (split_from sep r)).
Proof.
  induction h as [|c h IH]; cbn; intros H.
  - rewrite Ascii.eqb_refl. now destruct (split_from sep r).
  - apply orb_false_iff in H as [Hc Hh]. now rewrite (IH Hh), Hc.
Qed.

Lemma split_from_fst (sep : ascii) (s : string) :
  has_char sep (fst (split_from sep s)) = false
  /\ (s = fst (split_from sep s)
      \/ exists r, s = fst (split_from sep s) ++ String sep r).
Proof.
  induction s as [|c s [IH1 IH2]]; cbn; [auto|].
  destruct (split_from sep s) as [h t]. cbn in *.
  destruct (Ascii.eqb_spec c sep) as [->|Hc]; cbn.
  - split; [reflexivity|]. right. now exists s.
  - split.
    + apply orb_false_iff. split; [|exact IH1].
      now apply Ascii.eqb_neq.
    + destruct IH2 as [->|[r ->]]; [now left|]. right. now exists r.
Qed.

Lemma split_app_sep (sep : ascii) (s : string) :
  split sep (s ++ String sep "") = (split sep s ++ [""])%list.
Proof.
  unfold split. induction s as [|c s IH]; cbn.
  - now rewrite Ascii.eqb_refl.
  - destruct (split_from sep (s ++ String sep "")) as [h t].
    destruct (split_from sep s) as [h' t']. cbn in IH.
    inversion IH; subst. now destruct (Ascii.eqb c sep).
Qed.

(** Splitting a path gives back the segments it was made of. *)
Lemma split_path_of_segments (segments : list string) :
  Forall (fun segment => has_char "/" segment = false) segments ->
  split "/" (path_of_segments segments) = "" :: segments.
Proof.
  intros H.
  assert (G : forall s, has_char "/" s = false ->
                split "/" (s ++ path_of_segments segments) = s :: segments).
  { induction H as [|x l Hx _ IH]; intros s Hs; cbn [path_of_segments fold_right].
    - rewrite append_empty_r. unfold split. now rewrite split_from_no_sep.
    - unfold split.
      change ("/" ++ x ++ fold_right (fun segment path => "/" ++ segment ++ path) "" l)
        with (String "/" (x ++ path_of_segments l)).
      rewrite (split_from_app _ _ _ Hs).
      specialize (IH x Hx). unfold split in IH.
      destruct (split_from "/" (x ++ path_of_segments l)).
      cbn. now inversion IH. }
  exact (G "" eq_refl).
Qed.

(** ** Breadcrumbs *)

Lemma Breadcrumbs_loop_segments (name version seg : string)
  (segments : list string) :
  map fst (Breadcrumbs_loop name version seg segments)
  = filter (fun s => negb (s =? "")) segments.
Proof.
  revert seg. induction segments as [|s l IH]; intros seg; cbn; [reflexivity|].
  destruct (s =? ""); cbn; [apply IH|]. now rewrite IH.
Qed.

Lemma Breadcrumbs_loop_head (name version seg : string)
  (segments : list string) (s u : string) :
  nth_error (Breadcrumbs_loop name version seg segments) 0 = Some (s, u) ->
  u = seg ++ "/" ++ s ++ (if s =? name then "@" ++ version else "").
Proof.
  induction segments as [|x l IH]; cbn; [discriminate|].
  destruct (x =? ""); [exact IH|]. cbn. intros H. inversion H; subst.
  destruct (s =? name); [reflexivity|]. now rewrite append_empty_r.
Qed.

Lemma Breadcrumbs_loop_next (name version seg : string)
  (segments : list string) (i : nat) (s1 u1 s2 u2 : string) :
  nth_error (Breadcrumbs_loop name version seg segments) i = Some (s1, u1) ->
  nth_error (Breadcrumbs_loop name version seg segments) (S i) = Some (s2, u2) ->
  u2 = u1 ++ "/" ++ s2 ++ (if s2 =? name then "@" ++ version else "").
Proof.
  revert seg i. induction segments as [|x l IH]; intros seg i; cbn;
    [destruct i; discriminate|].
  destruct (x =? ""); [apply IH|].
  destruct i as [|i]; cbn.
  - intros H1 H2. inversion H1; subst.
    exact (Breadcrumbs_loop_head _ _ _ _ _ _ H2).
  - apply IH.
Qed.

Lemma last_cons_default {A : Type} (x d : A) (l : list A) :
  last (x :: l) d = last l x.
Proof.
  revert x d. induction l as [|y l IH]; intros x d; [reflexivity|].
  change (last (x :: y :: l) d) with (last (y :: l) d).
  now rewrite (IH y d), (IH y x).
Qed.

Lemma Breadcrumbs_loop_last (name version : string) (segments : list string) :
  Forall (fun s => s <> "" /\ s <> name) segments ->
  forall seg,
    last (map snd (Breadcrumbs_loop name version seg segments)) seg
    = seg ++ path_of_segments segments.
Proof.
  induction 1 as [|s l [Hs Hn] _ IH]; intros seg; cbn.
  - now rewrite append_empty_r.
  - apply String.eqb_neq in Hs, Hn. rewrite Hs, Hn.
    cbn [map snd]. rewrite last_cons_default, IH.
    now rewrite !append_assoc.
Qed.

Lemma Breadcrumbs_loop_app_empty (name version seg : string)
  (segments : list string) :
  Breadcrumbs_loop name version seg (segments ++ [""])
  = Breadcrumbs_loop name version seg segments.
Proof.
  revert seg. induction segments as [|s l IH]; intros seg; cbn; [reflexivity|].
  destruct (s =? ""); [apply IH|]. now rewrite IH.
Qed.

(** X9: the trail shows, in order, [x] (except for [std]), the name, and
    the segments of the path, without the empty ones. *)
Theorem Breadcrumbs_segments (name path version : string) (view : Views) :
  map title (Breadcrumbs name path version view)
  = filter (fun s => negb (s =? ""))
      ((if name =? "std" then [] else ["x"]) ++ name :: tl (split "/" path))%list.
Proof.
  unfold Breadcrumbs, Breadcrumbs_out. rewrite map_map.
  rewrite (map_ext _ fst) by (intros [seg u]; reflexivity).
  rewrite Breadcrumbs_loop_segments.
  now destruct (name =? "std").
Qed.

(** X10: the first link is the first segment behind a slash, and every
    other link is the link before it, a slash and its own segment; the
    version is written behind every segment that equals the name. *)
Theorem Breadcrumbs_links_nest (name path version : string) :
  let out := Breadcrumbs_out name path version in
  let at_version (s : string) := if s =? name then "@" ++ version else "" in
  (forall s u : string,
     nth_error out 0 = Some (s, u) -> u = "/" ++ s ++ at_version s)
  /\ (forall (i : nat) (s1 u1 s2 u2 : string),
        nth_error out i = Some (s1, u1) ->
        nth_error out (S i) = Some (s2, u2) ->
        u2 = u1 ++ "/" ++ s2 ++ at_version s2).
Proof.
  cbv zeta. unfold Breadcrumbs_out. split.
  - intros s u H. exact (Breadcrumbs_loop_head _ _ _ _ _ _ H).
  - intros i s1 u1 s2 u2. apply Breadcrumbs_loop_next.
Qed.

(** X11: for a path made of segments that are not empty, have no slash and
    differ from the name, the last link of the trail is the path of the
    page: [/x] (except for [std]), the name at the version, and the path. *)
Theorem Breadcrumbs_last_is_page (name version : string)
  (segments : list string) :
  name <> "" ->
  name <> "x" ->
  Forall (fun s => s <> "" /\ s <> name /\ has_char "/" s = false) segments ->
  last (map snd (Breadcrumbs_out name (path_of_segments segments) version)) ""
  = (if name =? "std" then "" else "/x") ++ "/" ++ name ++ "@" ++ version
    ++ path_of_segments segments.
Proof.
  intros Hne Hx Hsegs.
  assert (H1 : Forall (fun s => has_char "/" s = false) segments)
    by (eapply Forall_impl; [|exact Hsegs]; cbn; tauto).
  assert (H2 : Forall (fun s => s <> "" /\ s <> name) segments)
    by (eapply Forall_impl; [|exact Hsegs]; cbn; tauto).
  unfold Breadcrumbs_out. rewrite (split_path_of_segments _ H1). cbn [tl].
  apply String.eqb_neq in Hne. apply not_eq_sym, String.eqb_neq in Hx.
  destruct (name =? "std"); cbn [negb Breadcrumbs_loop];
    try rewrite Hx; cbn [String.eqb]; rewrite Hne, String.eqb_refl;
    cbn [map snd]; rewrite ?last_cons_default;
    rewrite (Breadcrumbs_loop_last _ _ _ H2);
    now rewrite ?append_assoc.
Qed.

(** X12: a slash at the end of the path does not change the trail. *)
Theorem Breadcrumbs_trailing_slash (name path version : string) (view : Views) :
  Breadcrumbs name (path ++ "/") version view
  = Breadcrumbs name path version view.
Proof.
  unfold Breadcrumbs, Breadcrumbs_out. f_equal.
  rewrite split_app_sep.
  unfold split. destruct (split_from "/" path) as [h t]. cbn [tl app].
  destruct (negb (name =? "std"));
    [ change ("x" :: name :: (t ++ [""])%list)
        with (("x" :: name :: t) ++ [""])%list
    | change (name :: (t ++ [""])%list) with ((name :: t) ++ [""])%list ];
    apply Breadcrumbs_loop_app_empty.
Qed.

(** ** The attributes of a module *)

(** X13: the module is marked as by the Deno team exactly when the owner
    of its repository, the part before the first slash, is [denoland]. *)
Theorem by_deno_team_owner {Config : Type} (name repository : string)
  (tags : option (list Tag)) (config : option Config) :
  In ByDenoTeam (InfoView_attributes name tags repository config)
  <-> repository = "denoland" \/ Js.startsWith repository "denoland/" = true.
Proof.
  assert (Hin : In ByDenoTeam (InfoView_attributes name tags repository config)
                <-> (hd "" (split "/" repository) =? "denoland") = true).
  { unfold InfoView_attributes.
    destruct (hd "" (split "/" repository) =? "denoland");
      destruct tags as [l|]; [destruct (find _ l)| |destruct (find _ l)|];
      destruct (negb (name =? "std")); destruct config; cbn;
      intuition discriminate. }
  rewrite Hin, String.eqb_eq. clear Hin.
  unfold split.
  destruct (split_from_fst "/" repository) as [Hh Hs].
  destruct (split_from "/" repository) as [h t] eqn:E. cbn in *.
  split.
  - intros ->. destruct Hs as [->|[r ->]]; [now left|]. right.
    unfold Js.startsWith. cbn. now destruct r.
  - intros [->|Hp].
    + cbn in E. now inversion E.
    + rewrite <- (startsWith_slice _ _ Hp) in E.
      change ("denoland/" ++ Js.slice (String.length "denoland/") repository)
        with ("denoland" ++ String "/" (Js.slice 9 repository)) in E.
      rewrite (split_from_app "/" "denoland" _ eq_refl) in E.
      now inversion E.
Qed.

(** * The properties above at work *)

(** [GET /x/oak@v12.0.0/mod.ts?source]: the page of the file is rendered
    with the file that [getRawFile] answered. *)
Lemma source_file_fetched_witness :
  run (Scenario.services (Scenario.ok "file") None)
    (Scenario.handler_GET Pages.oak_source Scenario.oak_params)
  = (Some (Render (Some (Build_Data
             (set_file (Scenario.page "file") ("export {}" : Scenario.Json))
             source))),
     [Call (page_lookup Pages.oak_source Scenario.oak_params);
      Call (GetRawFile "oak" "v12.0.0" "/mod.ts")])
  /\ exists f : Scenario.Json,
       file (set_file (Scenario.page "file") ("export {}" : Scenario.Json))
       = Some f
       /\ Scenario.services (Scenario.ok "file") None
            (GetRawFile "oak" "v12.0.0" "/mod.ts") = Some f
       /\ [Call (page_lookup Pages.oak_source Scenario.oak_params);
           Call (GetRawFile (Json := Scenario.Json) "oak" "v12.0.0" "/mod.ts")]
          = [Call (page_lookup Pages.oak_source Scenario.oak_params);
             Call (GetRawFile "oak" "v12.0.0" "/mod.ts")].
Proof.
  split; [reflexivity|].
  refine (source_file_fetched Scenario.Json Scenario.RawResponse
            Scenario.accepts Scenario.extractAltLineNumberReference
            (Scenario.services (Scenario.ok "file") None)
            Pages.oak_source Scenario.oak_params
            (Build_Data
               (set_file (Scenario.page "file") ("export {}" : Scenario.Json))
               source)
            [Call (page_lookup Pages.oak_source Scenario.oak_params);
             Call (GetRawFile "oak" "v12.0.0" "/mod.ts")]
            _ _ _); reflexivity.
Defined.

(** [GET /x/oak@v12.0.0]: the module page is rendered with the readme that
    [getReadme] answered. *)
Lemma readme_fetched_witness :
  run (Scenario.services Pages.module_info None)
    (Scenario.handler_GET Scenario.oak_module Scenario.oak_module_params)
  = (Some (Render (Some (Build_Data
             (set_readmeFile Pages.module_page ("# readme" : Scenario.Json))
             info))),
     [Call (page_lookup Scenario.oak_module Scenario.oak_module_params);
      Call (GetReadme "oak" "v12.0.0" ("README.md" : Scenario.Json))])
  /\ exists f : Scenario.Json,
       readmeFile (set_readmeFile Pages.module_page ("# readme" : Scenario.Json))
       = Some f
       /\ Scenario.services Pages.module_info None
            (GetReadme "oak" "v12.0.0" ("README.md" : Scenario.Json)) = Some f
       /\ [Call (page_lookup Scenario.oak_module Scenario.oak_module_params);
           Call (GetReadme "oak" "v12.0.0" ("README.md" : Scenario.Json))]
          = [Call (page_lookup Scenario.oak_module Scenario.oak_module_params);
             Call (GetReadme "oak" "v12.0.0" ("README.md" : Scenario.Json))].
Proof.
  split; [reflexivity|].
  refine (readme_fetched Scenario.Json Scenario.RawResponse
            Scenario.accepts Scenario.extractAltLineNumberReference
            (Scenario.services Pages.module_info None)
            Scenario.oak_module Scenario.oak_module_params
            (Build_Data
               (set_readmeFile Pages.module_page ("# readme" : Scenario.Json))
               info)
            [Call (page_lookup Scenario.oak_module Scenario.oak_module_params);
             Call (GetReadme "oak" "v12.0.0" ("README.md" : Scenario.Json))]
            ("README.md" : Scenario.Json) _ _ _); reflexivity.
Defined.

(** The same request is one that was negotiated to [text/html]. *)
Lemma render_only_html_witness :
  isHTML Scenario.accepts Scenario.oak_module = true
  /\ hd_error
       [Call (Json := Scenario.Json)
          (page_lookup Scenario.oak_module Scenario.oak_module_params);
        Call (GetReadme "oak" "v12.0.0" ("README.md" : Scenario.Json))]
     = Some (Call (page_lookup Scenario.oak_module Scenario.oak_module_params)).
Proof.
  refine (render_only_html Scenario.Json Scenario.RawResponse
            Scenario.accepts Scenario.extractAltLineNumberReference
            (Scenario.services Pages.module_info None)
            Scenario.oak_module Scenario.oak_module_params
            (Some (Build_Data
               (set_readmeFile Pages.module_page ("# readme" : Scenario.Json))
               info))
            [Call (page_lookup Scenario.oak_module Scenario.oak_module_params);
             Call (GetReadme "oak" "v12.0.0" ("README.md" : Scenario.Json))]
            _);
    reflexivity.
Defined.

(** [/x/std@0.150.0/fmt/colors.ts] becomes [/std@0.150.0/fmt/colors.ts],
    two characters shorter, and the rewrite does not apply to it. *)
Lemma std_redirect_ends_witness :
  Js.startsWith (URL.pathname (parsed_url Scenario.std_legacy)) "/x" = true
  /\ String.length "/std@0.150.0/fmt/colors.ts"
     < String.length "/x/std@0.150.0/fmt/colors.ts"
  /\ std_legacy_prefix Scenario.std_legacy_params
       (Scenario.deno_land "/std@0.150.0/fmt/colors.ts" []) = false.
Proof.
  split; [reflexivity|].
  pose proof (std_redirect_ends Scenario.std_legacy Scenario.std_legacy_params
                eq_refl) as [Hlt Hstd].
  split; [exact Hlt | exact (Hstd eq_refl)].
Defined.

(** The trail of [/x/oak@v12.0.0/examples/mod.ts] ends at that path. *)
Lemma Breadcrumbs_last_is_page_witness :
  last (map snd (Breadcrumbs_out "oak" "/examples/mod.ts" "v12.0.0")) ""
  = "/x/oak@v12.0.0/examples/mod.ts".
Proof.
  refine (Breadcrumbs_last_is_page "oak" "v12.0.0" ["examples"; "mod.ts"]
            _ _ _).
  - apply String.eqb_neq. reflexivity.
  - apply String.eqb_neq. reflexivity.
  - repeat constructor; apply String.eqb_neq; reflexivity.
Defined.

(** On [GET /x/oak@v12.0.0/mod.ts?source] the file that is fetched is that
    of the request, for a page of kind [file] in source view. *)
Lemma raw_file_only_for_source_witness :
  In (Call (GetRawFile (Json := Scenario.Json) "oak" "v12.0.0" "/mod.ts"))
     (snd (run (Scenario.services (Scenario.ok "file") None)
             (Scenario.handler_GET Pages.oak_source Scenario.oak_params)))
  /\ classify_view (URL.searchParams (parsed_url Pages.oak_source))
       (path Scenario.oak_params) = source.
Proof.
  assert (H : In (Call (GetRawFile (Json := Scenario.Json)
                          "oak" "v12.0.0" "/mod.ts"))
                (snd (run (Scenario.services (Scenario.ok "file") None)
                        (Scenario.handler_GET Pages.oak_source
                           Scenario.oak_params))))
    by (right; left; reflexivity).
  split; [exact H|].
  exact (proj1 (proj2 (raw_file_only_for_source Scenario.Json
                         Scenario.RawResponse Scenario.accepts
                         Scenario.extractAltLineNumberReference
                         (Scenario.services (Scenario.ok "file") None)
                         Pages.oak_source Scenario.oak_params
                         "oak" "v12.0.0" "/mod.ts" H))).
Defined.
